(** * Cost-aware model routing and task dispatch (NOVA)

    A shallow embedding of [src/models/ai.py] and of the router and the
    dispatcher of [src/ai/reasoning_engine.py], with the properties of the
    specification proved or refuted against it.

    Conventions of the embedding:
    - Python [int] is [Z]; Python [float] (money, scores in [0,1], seconds)
      is an exact rational [Qc] in the model of the router and of the
      dispatcher; the sums of the ledger, where rounding matters, are
      modelled with binary64 numbers in the module [Binary64];
    - Python [str] is [string]; a [dict] keyed by strings is a [gmap string _];
    - a call that may raise returns a [result]; methods that read or write
      the objects, the file system, the clock or the log run in the state and
      exception monad [M];
    - what lives outside the repository (the Ollama server, the process
      environment, the tokenizer, the self-analysis engine) is a variable of
      the section [Engine]. *)

From Stdlib Require Import PrimFloat SpecFloat FloatOps FloatAxioms.
From Stdlib Require Import Ascii String QArith Qcanon.
From stdpp Require Import base strings list gmap fin_maps numbers pretty.

Set Default Proof Using "Type".

(** ** Exceptions and results *)

Inductive exn : Type :=
  | ValueError (msg : string)
  | KeyError (key : string)
  | TypeError (msg : string)
  | IndexError (msg : string)
  | NotImplementedError (msg : string)
  | Exception (msg : string).

Inductive result (A : Type) : Type :=
  | Return (a : A)
  | Raise (e : exn).
Arguments Return {A} a.
Arguments Raise {A} e.

Definition raises {A} (r : result A) : Prop :=
  match r with Raise _ => True | Return _ => False end.

Definition returns {A} (r : result A) : Prop :=
  match r with Return _ => True | Raise _ => False end.

(** ** [src/models/ai.py] *)

Inductive TaskComplexity : Type := SIMPLE | MEDIUM | COMPLEX | CRITICAL.

Inductive ModelType : Type := LOCAL | FREE_API | PREMIUM_API.

#[global] Instance TaskComplexity_eq_dec : EqDecision TaskComplexity.
Proof. solve_decision. Defined.

#[global] Instance ModelType_eq_dec : EqDecision ModelType.
Proof. solve_decision. Defined.

Module Model.
Record t : Type := mk {
  name : string;
  type : ModelType;
  size_gb : option Qc;
  context_window : Z;
  capabilities : list string;
  cost_per_1k_tokens : Qc;
  speed_score : Z;
  quality_score : Z
}.

Definition is_local (m : t) : bool := bool_decide (type m = LOCAL).

Definition is_free (m : t) : bool := bool_decide (cost_per_1k_tokens m = 0%Qc).

(** The dataclass equality: field by field. *)
#[global] Instance eq_dec : EqDecision t.
Proof. solve_decision. Defined.
End Model.
Abbreviation Model := Model.t.

Module Task.
(** [timestamp] is never read by the router or the dispatcher and is left
    out. [complexity] has no default in the dataclass, so every task carries
    one and [hasattr(task, 'complexity')] holds. *)
Record t : Type := mk {
  content : string;
  complexity : TaskComplexity;
  context : gmap string string;
  requires_code_gen : bool;
  requires_web_access : bool;
  max_tokens : option Z
}.
End Task.
Abbreviation Task := Task.t.

Module Action.
Record t : Type := mk {
  type : string;
  target : string;
  params : gmap string string
}.
End Action.
Abbreviation Action := Action.t.

Module AIResponse.
Record t : Type := mk {
  content : string;
  actions : list Action;
  reasoning : string;
  model_used : string;
  confidence : Qc;
  fallback_used : bool;
  tokens_used : Z;
  cost : Qc;
  processing_time : Qc
}.

Definition success (r : t) : bool := bool_decide (Q2Qc 0.7 < confidence r)%Qc.

Definition set_processing_time (r : t) (s : Qc) : t :=
  mk (content r) (actions r) (reasoning r) (model_used r) (confidence r)
     (fallback_used r) (tokens_used r) (cost r) s.

Definition set_fallback_used (r : t) (b : bool) : t :=
  mk (content r) (actions r) (reasoning r) (model_used r) (confidence r)
     b (tokens_used r) (cost r) (processing_time r).
End AIResponse.
Abbreviation AIResponse := AIResponse.t.

(** Python's [max(0, x)]: the first argument is kept unless the second is
    strictly greater. *)
Definition py_max0 (x : Qc) : Qc := if bool_decide (0 < x)%Qc then x else 0%Qc.

Module CostTracking.
Record t : Type := mk {
  month : string;
  total_cost : Qc;
  cost_by_model : gmap string Qc;
  tokens_by_model : gmap string Z;
  budget_limit : Qc
}.

Definition remaining_budget (c : t) : Qc :=
  py_max0 (budget_limit c - total_cost c)%Qc.

Definition budget_percent_used (c : t) : Qc :=
  ((total_cost c / budget_limit c) * Q2Qc 100)%Qc.
End CostTracking.
Abbreviation CostTracking := CostTracking.t.

(** ** [ReasoningEngine._analyze_complexity] *)

Definition len (s : string) : Z := Z.of_nat (String.length s).

Definition _analyze_complexity (task_content : string) (requires_code_gen : bool)
  : TaskComplexity :=
  let content_length := len task_content in
  if (content_length <? 100)%Z && negb requires_code_gen then SIMPLE
  else if (content_length <? 500)%Z || requires_code_gen then MEDIUM
  else if (content_length <? 2000)%Z then COMPLEX
  else CRITICAL.

(** ** [CostOptimizedRouter]: model selection *)

(** The sort key [(m.quality_score, m.speed_score)], compared as Python
    compares tuples. *)
Definition key_lt (a b : Model) : bool :=
  (Model.quality_score a <? Model.quality_score b)%Z
  || ((Model.quality_score a =? Model.quality_score b)%Z
      && (Model.speed_score a <? Model.speed_score b)%Z).

(** [list.sort(key=..., reverse=True)] is stable: among equal keys the
    original order is kept. Insertion from the right puts an element before
    the first element whose key is not strictly greater. *)
Fixpoint insert_desc (x : Model) (l : list Model) : list Model :=
  match l with
  | [] => [x]
  | y :: l' => if key_lt x y then y :: insert_desc x l' else x :: l
  end.

Definition sort_desc (l : list Model) : list Model := foldr insert_desc [] l.

Definition has_code (m : Model) : bool :=
  bool_decide ("code" ∈ Model.capabilities m).

Definition _select_best_model (models : list Model) (task : Task) : result Model :=
  match models with
  | [] => Raise (ValueError "No models available")
  | _ =>
    let code_models := filter (fun m => has_code m = true) models in
    let models :=
      if Task.requires_code_gen task
      then match code_models with [] => models | _ => code_models end
      else models in
    match sort_desc models with
    | best :: _ => Return best
    | [] => Raise (IndexError "list index out of range")
    end
  end.

Definition local_models (available_models : list Model) : list Model :=
  filter (fun m => Model.type m = LOCAL) available_models.

Definition free_api_models (available_models : list Model) : list Model :=
  filter (fun m => Model.type m = FREE_API ∧ Model.is_free m = true) available_models.

Definition premium_models (available_models : list Model) : list Model :=
  filter (fun m => Model.type m = PREMIUM_API) available_models.

Definition nonempty {A} (l : list A) : bool :=
  match l with [] => false | _ => true end.

Definition gt (x y : Qc) : bool := bool_decide (y < x)%Qc.

Definition route_task (cost_tracking : CostTracking) (task : Task)
    (available_models : list Model) : result Model :=
  let remaining_budget := CostTracking.remaining_budget cost_tracking in
  let local_models := local_models available_models in
  let free_api_models := free_api_models available_models in
  let premium_models := premium_models available_models in
  if bool_decide (remaining_budget ≤ 0)%Qc then
    match Task.complexity task with
    | SIMPLE | MEDIUM => _select_best_model (local_models ++ free_api_models) task
    | _ => _select_best_model local_models task
    end
  else
    match Task.complexity task with
    | SIMPLE =>
      if nonempty local_models then _select_best_model local_models task
      else if nonempty free_api_models then _select_best_model free_api_models task
      else Raise (ValueError "No models available for simple tasks")
    | MEDIUM =>
      let candidates :=
        free_api_models
        ++ filter (fun m => (7 ≤ Model.quality_score m)%Z) local_models in
      if nonempty candidates then _select_best_model candidates task
      else if gt remaining_budget (Q2Qc 2) && nonempty premium_models
      then _select_best_model premium_models task
      else if nonempty local_models then _select_best_model local_models task
      else Raise (ValueError "No models available for medium complexity tasks")
    | COMPLEX =>
      if gt remaining_budget (Q2Qc 5) && nonempty premium_models
      then _select_best_model premium_models task
      else if nonempty local_models then _select_best_model local_models task
      else if nonempty free_api_models then _select_best_model free_api_models task
      else Raise (ValueError "No models available for complex tasks")
    | CRITICAL =>
      if gt remaining_budget (Q2Qc 1) && nonempty premium_models
      then _select_best_model premium_models task
      else if nonempty local_models then _select_best_model local_models task
      else if nonempty free_api_models then _select_best_model free_api_models task
      else Raise (ValueError "No models available for critical tasks")
    end.

(** ** The ledger file [~/.nova/cost_tracking.json]

    The file holds what [json.dump] wrote, read back by [json.load]: the
    text layer of the [json] module is trusted and the file is modelled by
    the JSON value it denotes. *)

#[warnings="-register-all"] Inductive json : Type :=
  | JNull
  | JBool (b : bool)
  | JInt (z : Z)
  | JFloat (q : Qc)
  | JStr (s : string)
  | JArr (l : list json)
  | JObj (fields : list (string * json)).

(** [json.load] keeps the last binding of a repeated key. *)
Definition json_get (k : string) (fields : list (string * json)) : option json :=
  snd <$> List.find (fun kv => bool_decide (kv.1 = k)) (reverse fields).

Definition dict_of_fields {A} (fields : list (string * A)) : gmap string A :=
  list_to_map (reverse fields).

Definition json_number (j : json) : option Qc :=
  match j with
  | JFloat q => Some q
  | JInt z => Some (Q2Qc (inject_Z z))
  | _ => None
  end.

Definition json_int (j : json) : option Z :=
  match j with JInt z => Some z | _ => None end.

Definition json_str_eqb (j : json) (s : string) : bool :=
  match j with JStr s' => bool_decide (s' = s) | _ => false end.

Definition json_dict {A} (dec : json → option A) (j : json) : option (gmap string A) :=
  match j with
  | JObj fields =>
    dict_of_fields <$> mapM (fun kv => pair kv.1 <$> dec kv.2) fields
  | _ => None
  end.

(** A dictionary written as a JSON object. Python writes the keys in
    insertion order; the [gmap] forgets that order, which no reader of the
    file depends on. *)
Definition dump_dict {A} (enc : A → json) (d : gmap string A) : json :=
  JObj (prod_map id enc <$> map_to_list d).

(** The dictionary literal of [save_cost_tracking]. *)
Definition cost_tracking_dict (c : CostTracking) : list (string * json) :=
  [ ("month", JStr (CostTracking.month c));
    ("total_cost", JFloat (CostTracking.total_cost c));
    ("cost_by_model", dump_dict JFloat (CostTracking.cost_by_model c));
    ("tokens_by_model", dump_dict JInt (CostTracking.tokens_by_model c));
    ("budget_limit", JFloat (CostTracking.budget_limit c)) ].

Definition dump_cost_tracking (c : CostTracking) : json := JObj (cost_tracking_dict c).

Definition CostTracking_fields : list string :=
  ["month"; "total_cost"; "cost_by_model"; "tokens_by_model"; "budget_limit"].

(** The dataclass constructor applied to the loaded dictionary as keyword
    arguments: an unknown keyword or a missing required field
    is a [TypeError]; [budget_limit] defaults to 10.0. A dataclass does not
    check the types of its fields; the typed record cannot hold an ill-typed
    value, and such a file is reported as a [TypeError] here. *)
Definition CostTracking_of_kwargs (data : list (string * json)) : result CostTracking :=
  if bool_decide (Forall (fun kv => kv.1 ∈ CostTracking_fields) data) then
    match json_get "month" data, json_get "total_cost" data,
          json_get "cost_by_model" data, json_get "tokens_by_model" data with
    | Some m, Some t, Some c, Some k =>
      let limit :=
        match json_get "budget_limit" data with
        | Some l => json_number l
        | None => Some (Q2Qc 10)
        end in
      match m, json_number t, json_dict json_number c, json_dict json_int k, limit with
      | JStr m, Some t, Some c, Some k, Some l => Return (CostTracking.mk m t c k l)
      | _, _, _, _, _ => Raise (TypeError "ill-typed field")
      end
    | _, _, _, _ => Raise (TypeError "missing required argument")
    end
  else Raise (TypeError "unexpected keyword argument").

(** ** Objects, world and the monad *)

Record CostOptimizedRouter : Type := mkRouter {
  monthly_limit : Qc;
  current_month : string;
  cost_tracking : CostTracking
}.

(** What the dispatcher writes to the logger. *)
Inductive log_entry : Type :=
  | LogRouting (model : string) (c : TaskComplexity)
  | LogFailed (model : string) (e : exn)
  | LogFallbackFailed (e : exn)
  | LogModelNotFound (model : string) (body : string).

(** One call of [SelfAnalysisEngine.analyze_interaction]. *)
Record interaction : Type := mkInteraction {
  i_request : string;
  i_response : string;
  i_model_used : string;
  i_processing_time : Qc;
  i_success : bool
}.

(** The engine object together with the part of the world it touches:
    [wall_month] is [datetime.now().strftime('%Y-%m')], [clock] the future
    readings of [time.time()], [disk] the ledger file if it exists. *)
Record state : Type := mkState {
  router : CostOptimizedRouter;
  available_models : list Model;
  disk : option json;
  wall_month : string;
  clock : list Qc;
  log : list log_entry;
  analysed : list interaction
}.

Definition M (A : Type) : Type := state → result A * state.

Definition ret {A} (a : A) : M A := fun s => (Return a, s).

Definition raise {A} (e : exn) : M A := fun s => (Raise e, s).

Definition bind {A B} (m : M A) (k : A → M B) : M B :=
  fun s =>
    match m s with
    | (Return a, s') => k a s'
    | (Raise e, s') => (Raise e, s')
    end.

(** [try: body except Exception as e: handler]: what the body did to the
    state before raising stays done. *)
Definition try_except {A} (body : M A) (handler : exn → M A) : M A :=
  fun s =>
    match body s with
    | (Return a, s') => (Return a, s')
    | (Raise e, s') => handler e s'
    end.

Definition lift {A} (r : result A) : M A := fun s => (r, s).

Definition gets {A} (f : state → A) : M A := fun s => (Return (f s), s).

Definition modify (f : state → state) : M unit := fun s => (Return tt, f s).

#[global] Instance M_ret : MRet M := @ret.
#[global] Instance M_bind : MBind M := fun A B k m => bind m k.

Definition set_router (r : CostOptimizedRouter) (s : state) : state :=
  mkState r (available_models s) (disk s) (wall_month s) (clock s) (log s) (analysed s).

Definition set_disk (d : option json) (s : state) : state :=
  mkState (router s) (available_models s) d (wall_month s) (clock s) (log s) (analysed s).

Definition set_clock (c : list Qc) (s : state) : state :=
  mkState (router s) (available_models s) (disk s) (wall_month s) c (log s) (analysed s).

Definition add_log (e : log_entry) (s : state) : state :=
  mkState (router s) (available_models s) (disk s) (wall_month s) (clock s)
          (log s ++ [e]) (analysed s).

Definition add_analysed (i : interaction) (s : state) : state :=
  mkState (router s) (available_models s) (disk s) (wall_month s) (clock s)
          (log s) (analysed s ++ [i]).

Definition logger (e : log_entry) : M unit := modify (add_log e).

(** [time.time()]: the next reading of the clock (0 once the readings given
    to the model are used up). *)
Definition time_time : M Qc :=
  fun s =>
    match clock s with
    | t :: rest => (Return t, set_clock rest s)
    | [] => (Return 0%Qc, s)
    end.

(** ** [CostOptimizedRouter]: the ledger *)

Definition fresh_cost_tracking (current_month : string) (monthly_limit : Qc)
  : CostTracking :=
  CostTracking.mk current_month 0%Qc ∅ ∅ monthly_limit.

(** [self.monthly_limit] and [self.current_month] are arguments: the method
    runs inside [__init__], before [self.cost_tracking] exists. *)
Definition _load_cost_tracking (monthly_limit : Qc) (current_month : string)
  : M CostTracking :=
  file ← gets disk;
  match file with
  | Some (JObj data) =>
    match json_get "month" data with
    | Some m =>
      if json_str_eqb m current_month then lift (CostTracking_of_kwargs data)
      else ret (fresh_cost_tracking current_month monthly_limit)
    | None => raise (KeyError "month")
    end
  | Some _ => raise (TypeError "object is not subscriptable by a string")
  | None => ret (fresh_cost_tracking current_month monthly_limit)
  end.

(** [CostOptimizedRouter.__init__]. *)
Definition CostOptimizedRouter__init__ (monthly_limit : Qc) : M unit :=
  current_month ← gets wall_month;
  cost_tracking ← _load_cost_tracking monthly_limit current_month;
  modify (set_router (mkRouter monthly_limit current_month cost_tracking)).

Definition save_cost_tracking : M unit :=
  self ← gets router;
  modify (set_disk (Some (dump_cost_tracking (cost_tracking self)))).

Definition set_cost_tracking (c : CostTracking) (s : state) : state :=
  set_router (mkRouter (monthly_limit (router s)) (current_month (router s)) c) s.

Definition set_total_cost (x : Qc) (c : CostTracking) : CostTracking :=
  CostTracking.mk (CostTracking.month c) x (CostTracking.cost_by_model c)
    (CostTracking.tokens_by_model c) (CostTracking.budget_limit c).

Definition set_cost_by_model (d : gmap string Qc) (c : CostTracking) : CostTracking :=
  CostTracking.mk (CostTracking.month c) (CostTracking.total_cost c) d
    (CostTracking.tokens_by_model c) (CostTracking.budget_limit c).

Definition set_tokens_by_model (d : gmap string Z) (c : CostTracking) : CostTracking :=
  CostTracking.mk (CostTracking.month c) (CostTracking.total_cost c)
    (CostTracking.cost_by_model c) d (CostTracking.budget_limit c).

(** An update of [self.cost_tracking] in place. *)
Definition update_cost_tracking (f : CostTracking → CostTracking) : M unit :=
  modify (fun s => set_cost_tracking (f (cost_tracking (router s))) s).

(** [d[k] += x]: a [KeyError] when [k] is not a key of [d]. *)
Definition dict_add {A} (add : A → A → A) (k : string) (x : A) (d : gmap string A)
  : result (gmap string A) :=
  match d !! k with
  | Some v => Return (<[k := add v x]> d)
  | None => Raise (KeyError k)
  end.

Definition track_usage (model : Model) (tokens : Z) (cost : Qc) : M unit :=
  let name := Model.name model in
  update_cost_tracking (fun c => set_total_cost (CostTracking.total_cost c + cost)%Qc c);;
  c ← gets (fun s => cost_tracking (router s));
  (if bool_decide (is_Some (CostTracking.cost_by_model c !! name)) then ret tt
   else
     update_cost_tracking (fun c => set_cost_by_model (<[name := 0%Qc]> (CostTracking.cost_by_model c)) c);;
     update_cost_tracking (fun c => set_tokens_by_model (<[name := 0%Z]> (CostTracking.tokens_by_model c)) c));;
  c ← gets (fun s => cost_tracking (router s));
  costs ← lift (dict_add Qcplus name cost (CostTracking.cost_by_model c));
  update_cost_tracking (set_cost_by_model costs);;
  c ← gets (fun s => cost_tracking (router s));
  toks ← lift (dict_add Z.add name tokens (CostTracking.tokens_by_model c));
  update_cost_tracking (set_tokens_by_model toks);;
  save_cost_tracking.

(** ** [ReasoningEngine]: the dispatcher *)

Definition ascii_upper (c : ascii) : ascii :=
  let n := nat_of_ascii c in
  if (97 <=? n)%nat && (n <=? 122)%nat then ascii_of_nat (n - 32) else c.

(** [str.upper()] on ASCII letters. *)
Fixpoint upper (s : string) : string :=
  match s with
  | EmptyString => EmptyString
  | String c s' => String (ascii_upper c) (upper s')
  end.

(** What the POST to [/api/generate] comes to inside [_process_with_ollama]:
    a status with its body, the timeout of 60 seconds, or any other exception
    (connection refused, a body without ['response'], ...). *)
Inductive ollama_reply : Type :=
  | Reply200 (response : string)
  | Reply404 (body : string)
  | ReplyStatus (status : Z) (body : string)
  | ReplyTimeout
  | ReplyError (e : exn).

Definition cloud_models (available_models : list Model) : list Model :=
  filter (fun m => Model.type m = FREE_API ∨ Model.type m = PREMIUM_API) available_models.

Definition _get_fallback_model (available_models : list Model) (failed_model : Model)
  : option Model :=
  let any_other := List.find (fun m => bool_decide (m ≠ failed_model)) available_models in
  match Model.type failed_model with
  | LOCAL =>
    match cloud_models available_models with
    | m :: _ => Some m
    | [] => any_other
    end
  | FREE_API | PREMIUM_API =>
    match local_models available_models with
    | m :: _ => Some m
    | [] => any_other
    end
  end.

(** The response of the final [return] of [process_task]. *)
Definition error_response (processing_time : Qc) : AIResponse :=
  AIResponse.mk "I encountered an error processing your request. Please try again."
    [] "All models failed to process the request" "none" 0%Qc true 0%Z 0%Qc
    processing_time.

Section Engine.

(** The Ollama server, asked with a model, a prompt and [max_tokens]. *)
Variable ollama_post : Model → string → Z → ollama_reply.
(** [os.environ.get]. *)
Variable environ : string → option string.
(** Whether [SelfAnalysisEngine.analyze_interaction] raises on a call. *)
Variable analysis_error : interaction → option exn.
Variable _build_prompt : Task → string.
Variable _count_tokens : string → Z.
Variable _extract_actions_and_reasoning : string → list Action * string.

Definition analyze_interaction (i : interaction) : M unit :=
  modify (add_analysed i);;
  match analysis_error i with
  | Some e => raise e
  | None => ret tt
  end.

Definition _process_with_ollama (task : Task) (model : Model) : M AIResponse :=
  let prompt := _build_prompt task in
  let tokens := _count_tokens prompt in
  let max_tokens :=
    match Task.max_tokens task with
    | Some n => if bool_decide (n = 0%Z) then 2000%Z else n
    | None => 2000%Z
    end in
  match ollama_post model prompt max_tokens with
  | Reply200 content =>
    let '(actions, reasoning) := _extract_actions_and_reasoning content in
    ret (AIResponse.mk content actions reasoning (Model.name model) (Q2Qc 0.9)
           false tokens 0%Qc 0%Qc)
  | Reply404 body =>
    logger (LogModelNotFound (Model.name model) body);;
    raise (Exception ("Model " +:+ Model.name model +:+ " not installed. Run: ollama pull "
                      +:+ Model.name model))
  | ReplyStatus status body =>
    raise (Exception ("Ollama returned status " +:+ pretty status +:+ ": " +:+ body))
  | ReplyTimeout => raise (Exception "Ollama request timed out")
  | ReplyError e => raise e
  end.

Definition _process_with_free_api (task : Task) (model : Model) : M AIResponse :=
  raise (NotImplementedError "Free API integration pending").

Definition _process_with_premium_api (task : Task) (model : Model) : M AIResponse :=
  match environ (upper (Model.name model) +:+ "_API_KEY") with
  | None | Some EmptyString => raise (Exception ("No API key found for " +:+ Model.name model))
  | Some _ => raise (NotImplementedError "Premium API integration pending")
  end.

Definition _process_with_model (task : Task) (model : Model) : M AIResponse :=
  match Model.type model with
  | LOCAL => _process_with_ollama task model
  | FREE_API => _process_with_free_api task model
  | PREMIUM_API => _process_with_premium_api task model
  end.

Definition final_error (start_time : Qc) : M AIResponse :=
  now ← time_time;
  ret (error_response (now - start_time)%Qc).

(** The body of the [try] around the primary model. *)
Definition try_primary (task : Task) (start_time : Qc) (selected_model : Model)
  : M AIResponse :=
  response ← _process_with_model task selected_model;
  now ← time_time;
  let processing_time := (now - start_time)%Qc in
  let response := AIResponse.set_processing_time response processing_time in
  analyze_interaction
    (mkInteraction (Task.content task) (AIResponse.content response)
       (Model.name selected_model) processing_time true);;
  ret response.

(** The [except] block of the primary model, and the final [return] that
    follows it. *)
Definition try_fallback (task : Task) (start_time : Qc) (selected_model : Model)
    (e : exn) : M AIResponse :=
  logger (LogFailed (Model.name selected_model) e);;
  self ← gets id;
  match _get_fallback_model (available_models self) selected_model with
  | Some fallback_model =>
    try_except
      (response ← _process_with_model task fallback_model;
       let response := AIResponse.set_fallback_used response true in
       now ← time_time;
       ret (AIResponse.set_processing_time response (now - start_time)%Qc))
      (fun e2 => logger (LogFallbackFailed e2);; final_error start_time)
  | None => final_error start_time
  end.

Definition process_task (task : Task) : M AIResponse :=
  start_time ← time_time;
  self ← gets id;
  selected_model ← lift (route_task (cost_tracking (router self)) task (available_models self));
  logger (LogRouting (Model.name selected_model) (Task.complexity task));;
  try_except (try_primary task start_time selected_model)
    (try_fallback task start_time selected_model).

(** The responses of the fallback path: the answer of the fallback model
    marked [fallback_used], or the error response. *)
Definition fallback_outcome (task : Task) (models : list Model) (selected : Model)
    (r : AIResponse) : Prop :=
  (∃ t, r = error_response t)
  ∨ (∃ fb r0 s0 s1 t,
       _get_fallback_model models selected = Some fb
       ∧ _process_with_model task fb s0 = (Return r0, s1)
       ∧ r = AIResponse.set_processing_time (AIResponse.set_fallback_used r0 true) t).

End Engine.

(** The pools [route_task] may draw from, once the budget gates are applied:
    without budget, local and free models for simple and medium tasks and
    local models alone otherwise; with budget, local and free models, and the
    premium models when the remaining budget exceeds the reserve of the
    task's complexity (none for simple tasks). *)
Definition premium_reserve (c : TaskComplexity) : option Qc :=
  match c with
  | SIMPLE => None
  | MEDIUM => Some (Q2Qc 2)
  | COMPLEX => Some (Q2Qc 5)
  | CRITICAL => Some (Q2Qc 1)
  end.

Definition open_pools (remaining : Qc) (c : TaskComplexity) (models : list Model)
  : list Model :=
  if bool_decide (remaining ≤ 0)%Qc then
    match c with
    | SIMPLE | MEDIUM => local_models models ++ free_api_models models
    | _ => local_models models
    end
  else
    local_models models ++ free_api_models models
    ++ match premium_reserve c with
       | Some reserve => if gt remaining reserve then premium_models models else []
       | None => []
       end.

(** The classification policy in the words of the specification: a cascade
    of three tests, each tier taken when its test is the first to hold. *)
Definition simple_test (length : Z) (code_gen : bool) : Prop :=
  (length < 100)%Z ∧ code_gen = false.

Definition medium_test (length : Z) (code_gen : bool) : Prop :=
  (length < 500)%Z ∨ code_gen = true.

Definition complex_test (length : Z) : Prop := (length < 2000)%Z.

Definition classify_spec (length : Z) (code_gen : bool) (c : TaskComplexity) : Prop :=
  match c with
  | SIMPLE => simple_test length code_gen
  | MEDIUM => ¬ simple_test length code_gen ∧ medium_test length code_gen
  | COMPLEX =>
    ¬ simple_test length code_gen ∧ ¬ medium_test length code_gen ∧ complex_test length
  | CRITICAL =>
    ¬ simple_test length code_gen ∧ ¬ medium_test length code_gen
    ∧ ¬ complex_test length
  end.

(** ** Specification-side definitions for the ledger *)

(** The period after one [track_usage] that ran to its end. *)
Definition usage_added (name : string) (tokens : Z) (cost : Qc) (c : CostTracking)
  : CostTracking :=
  CostTracking.mk (CostTracking.month c) (CostTracking.total_cost c + cost)%Qc
    (<[name := (default 0%Qc (CostTracking.cost_by_model c !! name) + cost)%Qc]>
       (CostTracking.cost_by_model c))
    (<[name := (default 0%Z (CostTracking.tokens_by_model c !! name) + tokens)%Z]>
       (CostTracking.tokens_by_model c))
    (CostTracking.budget_limit c).

(** Both dictionaries of a period have the same keys. *)
Definition keys_agree (c : CostTracking) : Prop :=
  ∀ k, is_Some (CostTracking.cost_by_model c !! k)
       ↔ is_Some (CostTracking.tokens_by_model c !! k).

Definition set_wall_month (w : string) (s : state) : state :=
  mkState (router s) (available_models s) (disk s) w (clock s) (log s) (analysed s).

(** The part of the state that holds the ledger, the registry and the
    calendar; the dispatcher is shown to leave it alone. *)
Definition static (s : state) : CostOptimizedRouter * list Model * option json * string :=
  (router s, available_models s, disk s, wall_month s).

Definition preserves {A} (m : M A) : Prop := ∀ s, static (m s).2 = static s.

(** The cost of a number of tokens on a model, as [get_cost_breakdown]
    computes it: [(tokens / 1000) * cost_per_1k_tokens]. *)
Definition usage_cost (model : Model) (tokens : Z) : Qc :=
  (Q2Qc (inject_Z tokens) / Q2Qc 1000 * Model.cost_per_1k_tokens model)%Qc.

(** ** Sample data

    The registry of the specification's example scenario, with a free-tier
    model added, and a budget period of January 2024 with a limit of 10. *)

Definition llama_7b : Model :=
  Model.mk "llama-7b" LOCAL (Some (Q2Qc 4)) 4096 ["general"; "code"] 0%Qc 8 7.

Definition gpt_x : Model :=
  Model.mk "gpt-x" PREMIUM_API None 8192 ["general"; "reasoning"] (Q2Qc 0.01) 7 10.

Definition groq : Model :=
  Model.mk "groq" FREE_API None 8192 ["general"; "fast"] 0%Qc 9 6.

Definition task_of (c : TaskComplexity) : Task := Task.mk "hello" c ∅ false false None.

Definition period (spent : Qc) : CostTracking :=
  CostTracking.mk "2024-01" spent ∅ ∅ (Q2Qc 10).

(** An engine whose router holds the period [c], with no ledger file, when
    the wall-clock month is [now]. *)
Definition state_of (c : CostTracking) (models : list Model) (now : string) : state :=
  mkState (mkRouter (Q2Qc 10) (CostTracking.month c) c) models None now [] [] [].

Definition state_with (c : CostTracking) (now : string) : state :=
  state_of c [llama_7b; gpt_x] now.

Definition fresh_state : state :=
  state_with (fresh_cost_tracking "2024-01" (Q2Qc 10)) "2024-01".

(** A period of January 2024 still in memory in February. *)
Definition stale_state : state := state_with (period (Q2Qc 7.5)) "2024-02".

Definition busy_period : CostTracking :=
  CostTracking.mk "2024-01" (Q2Qc 7.5)
    (<["gpt-x" := Q2Qc 7.5]> (<["llama-7b" := 0%Qc]> ∅))
    (<["gpt-x" := 750000%Z]> (<["llama-7b" := 4200%Z]> ∅)) (Q2Qc 10).

(** A world for the dispatcher: an Ollama server that answers or one that
    times out, no API key in the environment, an analysis engine that does
    not fail, and the token estimate of [_count_tokens] without tokenizer. *)
Definition ok_post (model : Model) (prompt : string) (max_tokens : Z) : ollama_reply :=
  Reply200 "Hello!".

Definition down_post (model : Model) (prompt : string) (max_tokens : Z) : ollama_reply :=
  ReplyTimeout.

Definition no_environ (var : string) : option string := None.

Definition no_analysis_error (i : interaction) : option exn := None.

Definition prompt_of (task : Task) : string := "User: " +:+ Task.content task.

Definition estimate_tokens (text : string) : Z := (len text / 4)%Z.

Definition no_actions (content : string) : list Action * string := ([], EmptyString).

Definition dispatch_with (post : Model → string → Z → ollama_reply) : Task → M AIResponse :=
  process_task post no_environ no_analysis_error prompt_of estimate_tokens no_actions.

(** ** Specification-side definitions for selection *)

(** The candidates [_select_best_model] sorts: the models tagged "code" when
    the task generates code and some candidate is tagged, all of them
    otherwise. *)
Definition selection_pool (models : list Model) (task : Task) : list Model :=
  if Task.requires_code_gen task
  then match filter (fun m => has_code m = true) models with
       | [] => models
       | code_models => code_models
       end
  else models.

(** ** Strings *)

(** [s.startswith(p)]. *)
Fixpoint startswith (s p : string) {struct p} : bool :=
  match p, s with
  | EmptyString, _ => true
  | String a p', String b s' => bool_decide (a = b) && startswith s' p'
  | String _ _, EmptyString => false
  end.

(** [needle in haystack] on strings. *)
Fixpoint contains (needle haystack : string) : bool :=
  startswith haystack needle
  || match haystack with
     | EmptyString => false
     | String _ rest => contains needle rest
     end.

(** [needle] occurs in [haystack]. *)
Definition occurs (needle haystack : string) : Prop :=
  ∃ before after, haystack = before +:+ needle +:+ after.

(** ** [ReasoningEngine]: the methods around the dispatcher *)

Module ReasoningEngine.

Definition nl : string := String (ascii_of_nat 10) EmptyString.

Definition system_prompt : string :=
  "You are NOVA, a helpful AI assistant. " +:+ nl
  +:+ "Provide clear, friendly, and helpful responses." +:+ nl
  +:+ "When someone greets you, respond naturally and warmly." +:+ nl
  +:+ "For technical tasks, be precise and accurate.".

(** ["\n".join(items)]. *)
Fixpoint join_lines (items : list string) : string :=
  match items with
  | [] => EmptyString
  | [item] => item
  | item :: rest => item +:+ nl +:+ join_lines rest
  end.

(** The values of the context are taken as the text the f-string renders. *)
Definition context_items (context : gmap string string) : list string :=
  omap id
    [ String.append "System: " <$> context !! "system_info";
      String.append "Current directory: " <$> context !! "current_directory";
      String.append "Recent files: " <$> context !! "recent_files" ].

Definition _build_prompt (task : Task) : string :=
  let context_str :=
    match context_items (Task.context task) with
    | [] => EmptyString
    | items => nl +:+ nl +:+ "Context:" +:+ nl +:+ join_lines items
    end in
  system_prompt +:+ context_str +:+ nl +:+ nl +:+ "User: " +:+ Task.content task
  +:+ nl +:+ nl +:+ "NOVA:".

(** [initialize], as far as [self.active_model] goes. *)
Definition name_matches (lower : string → string) (model : Model) (preferred : string)
  : bool :=
  bool_decide (lower (Model.name model) = lower preferred)
  || startswith (lower (Model.name model)) (lower preferred).

Definition initialize (lower : string → string) (environ : string → option string)
    (active_model : option Model) (available_models : list Model) : option Model :=
  let local_models := local_models available_models in
  let active_model :=
    match environ "NOVA_MODEL" with
    | None | Some EmptyString => active_model
    | Some preferred_model =>
      match List.find (fun m => name_matches lower m preferred_model) local_models with
      | Some model => Some model
      | None => active_model
      end
    end in
  match active_model, local_models with
  | None, first :: _ => Some first
  | _, _ => active_model
  end.

(** [switch_model]: the result and the active model afterwards. *)
Definition switch_model (available_models : list Model) (active_model : option Model)
    (model_name : string) : bool * option Model :=
  match List.find (fun m => bool_decide (Model.name m = model_name)) available_models with
  | Some model => (true, Some model)
  | None => (false, active_model)
  end.

(** [sum(tokens_by_model.get(m.name, 0) for m in available_models if m.type == kind)]. *)
Definition requests_of (tokens_by_model : gmap string Z) (kind : ModelType)
    (available_models : list Model) : Z :=
  foldr Z.add 0%Z
    ((fun m => default 0%Z (tokens_by_model !! Model.name m))
     <$> filter (fun m => Model.type m = kind) available_models).

(** [sum(tokens_by_model.values())]. *)
Definition total_requests (tokens_by_model : gmap string Z) : Z :=
  map_fold (fun _ v acc => (acc + v)%Z) 0%Z tokens_by_model.

End ReasoningEngine.

(** ** [src/core/nova_core.py]: the caller of the dispatcher *)

Module NOVACore.

(** The dictionary [process_user_request] returns. *)
Record reply : Type := mkReply {
  response : string;
  actions : list string;
  model : string;
  cost : Qc
}.

Definition complex_keywords : list string :=
  ["build"; "create app"; "implement system"; "complex"; "multiple"; "architecture"].

Definition medium_keywords : list string :=
  ["code"; "function"; "script"; "debug"; "fix"; "help"; "explain"].

Definition code_keywords : list string :=
  ["code"; "build"; "create"; "implement"; "function"; "class"; "app"; "script"].

Definition web_keywords : list string :=
  ["search"; "google"; "web"; "online"; "internet"; "download"].

Definition groq_mixtral : Model :=
  Model.mk "groq-mixtral" FREE_API None 32768 ["general"; "code"; "fast"] 0%Qc 10 8.

Definition gpt_4_turbo : Model :=
  Model.mk "gpt-4-turbo" PREMIUM_API None 128000
    ["general"; "code"; "reasoning"; "vision"] (Q2Qc 0.01) 7 10.

(** [discovered] is what [model_manager.discover_models()] comes to; when it
    raises, the registry starts empty. *)
Definition _get_available_models (discovered : result (list Model))
    (environ : string → option string) : list Model :=
  match discovered with Return models => models | Raise _ => [] end
  ++ [groq_mixtral]
  ++ match environ "OPENAI_API_KEY" with
     | None | Some EmptyString => []
     | Some _ => [gpt_4_turbo]
     end.

Section Requests.

(** [str.lower]. *)
Variable lower : string → string.

(** [any(keyword in request.lower() for keyword in keywords)]. *)
Definition any_keyword (keywords : list string) (request : string) : bool :=
  existsb (fun keyword => contains keyword (lower request)) keywords.

Definition _analyze_complexity (request : string) : TaskComplexity :=
  if any_keyword complex_keywords request then COMPLEX
  else if any_keyword medium_keywords request then MEDIUM
  else SIMPLE.

Definition _check_code_generation (request : string) : bool :=
  any_keyword code_keywords request.

Definition _check_web_access (request : string) : bool :=
  any_keyword web_keywords request.

(** The task [process_user_request] builds. *)
Definition make_task (request : string) (context : gmap string string) : Task :=
  Task.mk request (_analyze_complexity request) context
    (_check_code_generation request) (_check_web_access request) None.

Variable ollama_post : Model → string → Z → ollama_reply.
Variable environ : string → option string.
Variable analysis_error : interaction → option exn.
Variable _build_prompt : Task → string.
Variable _count_tokens : string → Z.
Variable _extract_actions_and_reasoning : string → list Action * string.
(** [self._build_context()], which reads the clock, the working directory
    and the profile. *)
Variable _build_context : result (gmap string string).
(** [self._execute_action], which catches its own exceptions. *)
Variable _execute_action : Action → bool.
(** Whether [self.memory.add_conversation] raises. *)
Variable add_conversation_error : string → AIResponse → list string → option exn.
(** [str(e)]. *)
Variable str_of_exn : exn → string.

Definition error_reply (e : exn) : reply :=
  mkReply ("I encountered an error: " +:+ str_of_exn e) [] "none" 0%Qc.

(** The logger of the core ("NOVA.Core") is not modelled. *)
Definition process_user_request (request : string) : M reply :=
  try_except
    (context ← lift _build_context;
     let task := make_task request context in
     ai_response ← process_task ollama_post environ analysis_error _build_prompt
                     _count_tokens _extract_actions_and_reasoning task;
     let actions_taken :=
       (fun action => Action.type action +:+ ": " +:+ Action.target action)
       <$> filter (fun action => _execute_action action = true)
                  (AIResponse.actions ai_response) in
     match add_conversation_error request ai_response actions_taken with
     | Some e => raise e
     | None => ret tt
     end;;
     ret (mkReply (AIResponse.content ai_response) actions_taken
            (AIResponse.model_used ai_response) (AIResponse.cost ai_response)))
    (fun e => ret (error_reply e)).

End Requests.

End NOVACore.

(** The [max_tokens] option sent to Ollama: [task.max_tokens or 2000]. *)
Definition max_tokens_of (task : Task) : Z :=
  match Task.max_tokens task with
  | Some n => if bool_decide (n = 0%Z) then 2000%Z else n
  | None => 2000%Z
  end.

(** ** More sample data *)

Definition code_task : Task := Task.mk "write a parser" MEDIUM ∅ true false None.

(** A period whose dictionaries disagree on their keys, as a hand-edited
    ledger file can hold: a cost for "gpt-x" and no token count. *)
Definition lopsided_period : CostTracking :=
  CostTracking.mk "2024-01" (Q2Qc 1) (<["gpt-x" := Q2Qc 1]> ∅) ∅ (Q2Qc 10).

(** The other way round: a token count for "gpt-x" and no cost. *)
Definition unmatched_period : CostTracking :=
  CostTracking.mk "2024-01" 0%Qc ∅ (<["gpt-x" := 900%Z]> ∅) (Q2Qc 10).

(** A ledger file of another month with a field the dataclass does not
    have, and one of the current month with it. *)
Definition foreign_file (month : string) : list (string * json) :=
  [("month", JStr month); ("total_cost", JFloat (Q2Qc 3)); ("notes", JNull)].

Definition ascii_lower (c : ascii) : ascii :=
  let n := nat_of_ascii c in
  if (65 <=? n)%nat && (n <=? 90)%nat then ascii_of_nat (n + 32) else c.

(** [str.lower()] on ASCII letters, for the examples. *)
Fixpoint lower_ascii (s : string) : string :=
  match s with
  | EmptyString => EmptyString
  | String c s' => String (ascii_lower c) (lower_ascii s')
  end.

(** A self-analysis engine that cannot write its performance file. *)
Definition failing_analysis (i : interaction) : option exn :=
  Some (Exception "performance.json is not writable").

(** A context as the core builds it, with an entry the prompt ignores. *)
Definition plain_context : gmap string string :=
  <["system_info" := "M2 Mac"]> (<["timestamp" := "2024-01-05T10:00:00"]> ∅).

Definition mistral_7b : Model :=
  Model.mk "mistral:7b" LOCAL (Some (Q2Qc 4.1)) 8192 ["general"; "code"] 0%Qc 8 7.

(** An engine initialised by the core after two local models were
    discovered and no OpenAI key is set. *)
Definition core_state : state :=
  state_of (period 0%Qc)
    (NOVACore._get_available_models (Return [llama_7b; mistral_7b]) no_environ) "2024-01".

(** ** The ledger in binary64

    [total_cost], the values of [cost_by_model] and [budget_limit] are
    Python floats: IEEE 754 binary64 numbers, each sum and difference rounded
    to nearest. Where a property of the ledger depends on that rounding, or
    on the order in which a dictionary yields its values, the ledger is
    modelled here with the kernel's binary64 numbers and with dictionaries
    that keep their insertion order. *)

Module Binary64.

(** A Python [dict] with string keys, in insertion order. *)
Definition dict (A : Type) : Type := list (string * A).

Fixpoint dict_get {A} (d : dict A) (k : string) : option A :=
  match d with
  | [] => None
  | (k', v) :: d' => if bool_decide (k' = k) then Some v else dict_get d' k
  end.

(** [d[k] = v]: a key that is present keeps its place, a new key goes last. *)
Fixpoint dict_set {A} (d : dict A) (k : string) (v : A) : dict A :=
  match d with
  | [] => [(k, v)]
  | (k', v') :: d' =>
    if bool_decide (k' = k) then (k, v) :: d' else (k', v') :: dict_set d' k v
  end.

(** [d.values()]. *)
Definition values {A} (d : dict A) : list A := d.*2.

Module CostTracking.
Record t : Type := mk {
  month : string;
  total_cost : float;
  cost_by_model : dict float;
  tokens_by_model : dict Z;
  budget_limit : float
}.

(** [max(0, budget_limit - total_cost)]: [max] keeps its first argument
    unless the second is strictly greater, so the result is 0 also when the
    difference is not a number. *)
Definition remaining_budget (c : t) : float :=
  let x := (budget_limit c - total_cost c)%float in
  if (0 <? x)%float then x else 0%float.
End CostTracking.
Abbreviation CostTracking := CostTracking.t.

(** The [cost_tracking] object of the router and the ledger file: the five
    entries [save_cost_tracking] wrote last, if any. *)
Record state : Type := mkState {
  cost_tracking : CostTracking;
  disk : option CostTracking
}.

Definition fresh_cost_tracking (current_month : string) (monthly_limit : float)
  : CostTracking :=
  CostTracking.mk current_month 0%float [] [] monthly_limit.

(** [CostOptimizedRouter.track_usage], with [save_cost_tracking] at its end.
    A [KeyError] leaves the updates made before it in place. *)
Definition track_usage (model : Model) (tokens : Z) (cost : float) (s : state)
  : result unit * state :=
  let name := Model.name model in
  let c := cost_tracking s in
  let month := CostTracking.month c in
  let limit := CostTracking.budget_limit c in
  let total := (CostTracking.total_cost c + cost)%float in
  let '(costs, toks) :=
    match dict_get (CostTracking.cost_by_model c) name with
    | Some _ => (CostTracking.cost_by_model c, CostTracking.tokens_by_model c)
    | None =>
      (dict_set (CostTracking.cost_by_model c) name 0%float,
       dict_set (CostTracking.tokens_by_model c) name 0%Z)
    end in
  match dict_get costs name with
  | None => (Raise (KeyError name),
             mkState (CostTracking.mk month total costs toks limit) (disk s))
  | Some v =>
    let costs := dict_set costs name (v + cost)%float in
    match dict_get toks name with
    | None => (Raise (KeyError name),
               mkState (CostTracking.mk month total costs toks limit) (disk s))
    | Some n =>
      let c' := CostTracking.mk month total costs (dict_set toks name (n + tokens)%Z) limit in
      (Return tt, mkState c' (Some c'))
    end
  end.

(** A sequence of [track_usage] calls, stopping at the first that raises. *)
Fixpoint track_all (calls : list (Model * Z * float)) (s : state) : result unit * state :=
  match calls with
  | [] => (Return tt, s)
  | (model, tokens, cost) :: rest =>
    match track_usage model tokens cost s with
    | (Return _, s') => track_all rest s'
    | (Raise e, s') => (Raise e, s')
    end
  end.

(** *** Specification-side definitions *)

(** Amounts added one after the other to [start], each sum rounded. *)
Definition running_sum (start : float) (amounts : list float) : float :=
  fold_left PrimFloat.add amounts start.

(** The costs of the calls that name the model [name], in call order. *)
Definition costs_of (name : string) (calls : list (Model * Z * float)) : list float :=
  (filter (fun call => Model.name call.1.1 = name) calls).*2.

(** The entry of a model once [amounts] have been recorded for it, from the
    entry [old] it had before: created at 0.0 by the first of them. *)
Definition entry_after (old : option float) (amounts : list float) : option float :=
  match amounts with
  | [] => old
  | _ => Some (running_sum (default 0%float old) amounts)
  end.

(** Both dictionaries of a period have the same keys. *)
Definition keys_agree (c : CostTracking) : Prop :=
  ∀ k, is_Some (dict_get (CostTracking.cost_by_model c) k)
       ↔ is_Some (dict_get (CostTracking.tokens_by_model c) k).

(** Python's [sum(xs)] on floats up to version 3.11: the items are added
    from left to right, starting from 0. *)
Definition plain_sum (xs : list float) : float := running_sum 0%float xs.

(** One step of the compensated summation of [sum] since Python 3.12
    (Neumaier's): the running total and the compensation. *)
Definition compensated_step (acc : float * float) (x : float) : float * float :=
  let '(f, c) := acc in
  let t := (f + x)%float in
  if (abs x <=? abs f)%float then (t, (c + ((f - t) + x))%float)
  else (t, (c + ((x - t) + f))%float).

(** Python's [sum(xs)] on floats since version 3.12: the first item is added
    to the integer 0, the others are added with compensation, and the
    compensation is added at the end when it is finite and not zero. *)
Definition compensated_sum (xs : list float) : float :=
  match xs with
  | [] => 0%float
  | x :: xs' =>
    let '(f, c) := fold_left compensated_step xs' ((0 + x)%float, 0%float) in
    if negb (is_zero c) && is_finite c then (f + c)%float else f
  end.

(** Sample data: a period that starts zeroed and three paid calls. *)
Definition fresh_state : state :=
  mkState (fresh_cost_tracking "2024-01" 10%float) None.

#[warnings="-inexact-float"] Definition rounding_calls : list (Model * Z * float) :=
  [(llama_7b, 100%Z, 0.1%float); (gpt_x, 200%Z, 0.2%float); (gpt_x, 300%Z, 0.3%float)].

End Binary64.

(** * Properties *)

(** ** Classification *)

(** C7. [_analyze_complexity] is a function of the length of the request and
    of the code-generation flag alone, and returns each tier exactly under
    the condition the policy gives for it: simple iff shorter than 100 and
    no code generation; otherwise medium iff shorter than 500 or code
    generation; otherwise complex iff shorter than 2000; otherwise
    critical. *)
Theorem analyze_complexity_policy (content : string) (code_gen : bool)
    (c : TaskComplexity) :
  _analyze_complexity content code_gen = c ↔ classify_spec (len content) code_gen c.
Proof.
  unfold _analyze_complexity, classify_spec, simple_test, medium_test, complex_test.
  destruct (Z.ltb_spec (len content) 100), (Z.ltb_spec (len content) 500),
    (Z.ltb_spec (len content) 2000), code_gen, c; simpl;
    split; intros; try discriminate; try reflexivity;
    try (exfalso; intuition (lia || congruence)); intuition (lia || congruence).
Qed.

(** ** Selection *)

Lemma insert_desc_Permutation (x : Model) (l : list Model) :
  insert_desc x l ≡ₚ x :: l.
Proof.
  induction l as [|y l IH]; simpl; [done|].
  destruct (key_lt x y); [|done].
  rewrite IH. apply Permutation_swap.
Qed.

Lemma sort_desc_Permutation (l : list Model) : sort_desc l ≡ₚ l.
Proof.
  induction l as [|x l IH]; simpl; [done|].
  rewrite insert_desc_Permutation. by f_equiv.
Qed.

Lemma sort_desc_head (l : list Model) :
  l ≠ [] → ∃ best rest, sort_desc l = best :: rest ∧ best ∈ l.
Proof.
  intros Hl. destruct (sort_desc l) as [|best rest] eqn:Hs.
  - pose proof (sort_desc_Permutation l) as Hp.
    rewrite Hs in Hp. by apply Permutation_nil_l in Hp.
  - exists best, rest. split; [done|].
    rewrite <- (sort_desc_Permutation l), Hs. apply list_elem_of_here.
Qed.

(** The chosen model is one of the candidates, and carries the "code" tag
    whenever the task generates code and some candidate carries it. *)
Lemma select_best_model_elem (models : list Model) (task : Task) (m : Model) :
  _select_best_model models task = Return m → m ∈ models.
Proof.
  unfold _select_best_model. destruct models as [|m0 ms]; [done|].
  set (all := m0 :: ms).
  set (chosen := if Task.requires_code_gen task then _ else _).
  assert (Hsub : ∀ x, x ∈ chosen → x ∈ all).
  { intros x. unfold chosen. destruct (Task.requires_code_gen task); [|done].
    destruct (filter _ all) as [|c cs] eqn:Hf; [done|].
    rewrite <- Hf. intros Hx. by apply list_elem_of_filter in Hx as [_ ?]. }
  destruct (sort_desc chosen) as [|best rest] eqn:Hs; [done|].
  intros [= <-]. apply Hsub.
  rewrite <- (sort_desc_Permutation chosen), Hs. apply list_elem_of_here.
Qed.

Lemma select_best_model_returns (models : list Model) (task : Task) :
  models ≠ [] → ∃ m, _select_best_model models task = Return m.
Proof.
  intros Hne. unfold _select_best_model. destruct models as [|m0 ms]; [done|].
  set (all := m0 :: ms).
  set (chosen := if Task.requires_code_gen task then _ else _).
  assert (Hc : chosen ≠ []).
  { unfold chosen. destruct (Task.requires_code_gen task); [|done].
    by destruct (filter _ all). }
  destruct (sort_desc_head chosen Hc) as (best & rest & -> & _). eauto.
Qed.

Lemma select_best_model_raises (models : list Model) (task : Task) :
  raises (_select_best_model models task) ↔ models = [].
Proof.
  split.
  - intros Hr. destruct models as [|m0 ms]; [done|].
    destruct (select_best_model_returns (m0 :: ms) task) as [m Hm]; [done|].
    by rewrite Hm in Hr.
  - by intros ->.
Qed.

Lemma nonempty_true {A} (l : list A) : nonempty l = true ↔ l ≠ [].
Proof. by destruct l. Qed.

Lemma nonempty_false {A} (l : list A) : nonempty l = false ↔ l = [].
Proof. by destruct l. Qed.

(** ** Routing *)

Ltac pools_cases :=
  repeat match goal with
  | |- context [nonempty ?l] => destruct (nonempty l) eqn:?
  | |- context [bool_decide ?P] => destruct (bool_decide P) eqn:?
  end; simpl.

Lemma route_task_raises (c : CostTracking) (task : Task) (models : list Model) :
  raises (route_task c task models)
  ↔ open_pools (CostTracking.remaining_budget c) (Task.complexity task) models = [].
Proof.
  unfold route_task, open_pools, premium_reserve, gt.
  generalize (CostTracking.remaining_budget c) as rb.
  generalize (local_models models) as L.
  generalize (free_api_models models) as F.
  generalize (premium_models models) as P.
  intros P F L rb.
  destruct (Task.complexity task); pools_cases;
    rewrite ?select_best_model_raises, ?app_nil;
    repeat match goal with
    | H : nonempty _ = true |- _ => apply nonempty_true in H
    | H : nonempty _ = false |- _ => apply nonempty_false in H
    | H : _ ++ _ = [] |- _ => apply app_nil in H as [? ?]
    end; subst; simpl in *; try tauto.
  all: try (split; [intros []|]; intros; destruct_and?; simplify_eq; try done).
Qed.

Lemma route_task_elem (c : CostTracking) (task : Task) (models : list Model) (m : Model) :
  route_task c task models = Return m
  → m ∈ open_pools (CostTracking.remaining_budget c) (Task.complexity task) models.
Proof.
  unfold route_task, open_pools, premium_reserve, gt.
  generalize (CostTracking.remaining_budget c) as rb.
  generalize (local_models models) as L.
  generalize (free_api_models models) as F.
  generalize (premium_models models) as P.
  intros P F L rb.
  destruct (Task.complexity task); pools_cases; intros Hm; try discriminate;
    apply select_best_model_elem in Hm;
    rewrite ?elem_of_app in *; rewrite ?list_elem_of_filter in *; tauto.
Qed.

Lemma open_pools_elem (rb : Qc) (c : TaskComplexity) (models : list Model) (m : Model) :
  m ∈ open_pools rb c models → m ∈ models.
Proof.
  unfold open_pools, local_models, free_api_models, premium_models.
  repeat case_match; rewrite ?elem_of_app, ?list_elem_of_filter, ?elem_of_nil; tauto.
Qed.

Lemma route_task_available (c : CostTracking) (task : Task) (models : list Model)
    (m : Model) :
  route_task c task models = Return m → m ∈ models.
Proof. intros H%route_task_elem. by eapply open_pools_elem. Qed.

(** C2, as the code has it. [route_task] raises exactly when the pools left
    open by the budget gates for the task's complexity are all empty, and a
    model it returns comes from those pools. A premium model behind a closed
    gate (remaining budget not above the reserve, or a simple task), a
    free-tier model when the budget is spent and the task is complex or
    critical, and a free-tier model with a non-zero price do not prevent the
    failure. *)
Theorem route_task_fails_iff_no_open_pool (c : CostTracking) (task : Task)
    (models : list Model) :
  (raises (route_task c task models)
   ↔ open_pools (CostTracking.remaining_budget c) (Task.complexity task) models = [])
  ∧ (∀ m, route_task c task models = Return m
          → m ∈ open_pools (CostTracking.remaining_budget c) (Task.complexity task) models
            ∧ m ∈ models).
Proof.
  split; [apply route_task_raises|].
  intros m Hm. split; [by apply route_task_elem | by eapply route_task_available].
Qed.

(** C2, as stated, fails: with 3.0 of the budget left, a complex task and a
    registry holding one premium model, [route_task] raises although the
    premium pool is not empty. *)
Lemma route_task_fails_with_premium_available :
  ¬ (raises (route_task (period (Q2Qc 7)) (task_of COMPLEX) [gpt_x])
     → local_models [gpt_x] = [] ∧ free_api_models [gpt_x] = []
       ∧ premium_models [gpt_x] = []).
Proof. intros H. destruct H as (_ & _ & H); [exact I|]. vm_compute in H. discriminate. Qed.

(** C5. With a remaining budget of exactly 1.5, a premium model and a local
    model available, a critical task is routed to a premium model and a
    complex task, with the same registry and budget, to a local model. *)
Theorem critical_overrides_reserve (c : CostTracking) (models : list Model)
    (critical complex : Task) :
  CostTracking.remaining_budget c = Q2Qc 1.5 →
  premium_models models ≠ [] →
  local_models models ≠ [] →
  Task.complexity critical = CRITICAL →
  Task.complexity complex = COMPLEX →
  (∃ m, route_task c critical models = Return m ∧ m ∈ models
        ∧ Model.type m = PREMIUM_API)
  ∧ (∃ m, route_task c complex models = Return m ∧ m ∈ models
          ∧ Model.type m = LOCAL).
Proof.
  intros Hb HP HL Hcrit Hcplx. unfold route_task. rewrite Hb, Hcrit, Hcplx.
  change (bool_decide (Q2Qc 1.5 ≤ 0)%Qc) with false.
  change (gt (Q2Qc 1.5) (Q2Qc 1)) with true.
  change (gt (Q2Qc 1.5) (Q2Qc 5)) with false.
  apply nonempty_true in HP as HP'. apply nonempty_true in HL as HL'.
  rewrite HP', HL'. simpl. split.
  - destruct (select_best_model_returns _ critical HP) as [m Hm].
    exists m. split; [done|]. apply select_best_model_elem in Hm.
    unfold premium_models in Hm. apply list_elem_of_filter in Hm as [? ?]. done.
  - destruct (select_best_model_returns _ complex HL) as [m Hm].
    exists m. split; [done|]. apply select_best_model_elem in Hm.
    unfold local_models in Hm. apply list_elem_of_filter in Hm as [? ?]. done.
Qed.

Lemma critical_overrides_reserve_witness :
  (∃ m, route_task (period (Q2Qc 8.5)) (task_of CRITICAL) [llama_7b; gpt_x] = Return m
        ∧ m ∈ [llama_7b; gpt_x] ∧ Model.type m = PREMIUM_API)
  ∧ (∃ m, route_task (period (Q2Qc 8.5)) (task_of COMPLEX) [llama_7b; gpt_x] = Return m
          ∧ m ∈ [llama_7b; gpt_x] ∧ Model.type m = LOCAL).
Proof.
  apply critical_overrides_reserve.
  - apply Qc_is_canon. reflexivity.
  - vm_compute. discriminate.
  - vm_compute. discriminate.
  - reflexivity.
  - reflexivity.
Defined.

(** C6. When the remaining budget is at most 0, the model [route_task]
    returns is never a premium one, whatever the registry holds: it is a
    local or a free model for simple and medium tasks, and a local model for
    complex and critical ones. *)
Theorem no_budget_no_premium (c : CostTracking) (task : Task) (models : list Model)
    (m : Model) :
  (CostTracking.remaining_budget c ≤ 0)%Qc →
  route_task c task models = Return m →
  m ∈ models ∧ Model.type m ≠ PREMIUM_API ∧
  match Task.complexity task with
  | SIMPLE | MEDIUM =>
    Model.type m = LOCAL ∨ (Model.type m = FREE_API ∧ Model.is_free m = true)
  | COMPLEX | CRITICAL => Model.type m = LOCAL
  end.
Proof.
  intros Hb Hm. split; [by eapply route_task_available|].
  apply route_task_elem in Hm. unfold open_pools in Hm.
  rewrite bool_decide_eq_true_2 in Hm by done.
  unfold local_models, free_api_models in Hm.
  destruct (Task.complexity task);
    rewrite ?elem_of_app, ?list_elem_of_filter in Hm;
    (split; [intros Hp|]); destruct_or?; destruct_and?; try congruence; auto.
Qed.

Lemma no_budget_no_premium_witness :
  llama_7b ∈ [gpt_x; groq; llama_7b] ∧ Model.type llama_7b ≠ PREMIUM_API
  ∧ Model.type llama_7b = LOCAL.
Proof.
  apply (no_budget_no_premium (period (Q2Qc 10)) (task_of COMPLEX) [gpt_x; groq; llama_7b]).
  - vm_compute. discriminate.
  - vm_compute. reflexivity.
Defined.

(** ** The ledger *)

Lemma track_usage_run (model : Model) (tokens : Z) (cost : Qc) (s : state) :
  keys_agree (cost_tracking (router s)) →
  let c' := usage_added (Model.name model) tokens cost (cost_tracking (router s)) in
  track_usage model tokens cost s
  = (Return tt, set_disk (Some (dump_cost_tracking c')) (set_cost_tracking c' s)).
Proof.
  intros Hk. destruct s as [[lim cm c] ms d w cl lg an]. simpl in *.
  destruct c as [mo tot costs toks bl]. unfold keys_agree in Hk. simpl in Hk.
  specialize (Hk (Model.name model)).
  unfold track_usage, usage_added, mbind, M_bind, bind, update_cost_tracking, modify,
    gets, save_cost_tracking, lift, dict_add, set_cost_tracking, set_router, set_disk,
    set_total_cost, set_cost_by_model, set_tokens_by_model, mret, M_ret, ret. simpl.
  destruct (costs !! Model.name model) as [v|] eqn:Hc; simpl.
  - rewrite ?Hc. simpl.
    destruct Hk as [[t Ht] _]; [eauto|]. rewrite Ht. simpl. done.
  - assert (Ht : toks !! Model.name model = None).
    { destruct (toks !! Model.name model) eqn:Ht; [|done].
      destruct Hk as [_ [? ?]]; [eauto|done]. }
    rewrite !lookup_insert_eq. simpl. rewrite !insert_insert_eq, Ht. done.
Qed.

Lemma usage_added_keys_agree (name : string) (tokens : Z) (cost : Qc) (c : CostTracking) :
  keys_agree c → keys_agree (usage_added name tokens cost c).
Proof.
  intros Hk k. unfold usage_added. simpl.
  destruct (decide (name = k)) as [->|Hne].
  - rewrite !lookup_insert_eq. split; eauto.
  - rewrite !lookup_insert_ne by done. apply Hk.
Qed.

(** ** The ledger in binary64 *)

Lemma dict_get_set_eq {A} (d : Binary64.dict A) (k : string) (v : A) :
  Binary64.dict_get (Binary64.dict_set d k v) k = Some v.
Proof.
  induction d as [|[k' v'] d IH]; simpl.
  - by rewrite bool_decide_eq_true_2.
  - case_bool_decide as Hk; simpl.
    + by rewrite bool_decide_eq_true_2.
    + by rewrite bool_decide_eq_false_2.
Qed.

Lemma dict_get_set_ne {A} (d : Binary64.dict A) (k k' : string) (v : A) :
  k ≠ k' → Binary64.dict_get (Binary64.dict_set d k v) k' = Binary64.dict_get d k'.
Proof.
  intros Hne. induction d as [|[k0 v0] d IH]; simpl.
  - by rewrite bool_decide_eq_false_2.
  - case_bool_decide as Hk; simpl.
    + subst k0. by rewrite !bool_decide_eq_false_2.
    + by rewrite IH.
Qed.


Lemma track_usage_binary64_run (model : Model) (tokens : Z) (cost : float)
    (s : Binary64.state) :
  Binary64.keys_agree (Binary64.cost_tracking s) →
  ∃ s', Binary64.track_usage model tokens cost s = (Return tt, s')
    ∧ let c := Binary64.cost_tracking s in
      let c' := Binary64.cost_tracking s' in
      Binary64.keys_agree c'
      ∧ Binary64.CostTracking.total_cost c'
        = (Binary64.CostTracking.total_cost c + cost)%float
      ∧ (∀ k, Binary64.dict_get (Binary64.CostTracking.cost_by_model c') k
              = if bool_decide (Model.name model = k)
                then Some (default 0%float
                             (Binary64.dict_get (Binary64.CostTracking.cost_by_model c) k)
                           + cost)%float
                else Binary64.dict_get (Binary64.CostTracking.cost_by_model c) k)
      ∧ Binary64.CostTracking.budget_limit c' = Binary64.CostTracking.budget_limit c
      ∧ Binary64.CostTracking.month c' = Binary64.CostTracking.month c.
Proof.
  intros Hk. destruct s as [[mo tot costs toks bl] d]. unfold Binary64.keys_agree in Hk.
  simpl in *. unfold Binary64.track_usage. simpl.
  pose proof (Hk (Model.name model)) as Hname.
  destruct (Binary64.dict_get costs (Model.name model)) as [v|] eqn:Hc; simpl.
  - rewrite Hc. destruct Hname as [[n Hn] _]; [eauto|]. rewrite Hn.
    eexists. split; [done|]. unfold Binary64.keys_agree. simpl. split_and!; try done.
    + intros k. destruct (decide (Model.name model = k)) as [<-|Hne].
      * rewrite !dict_get_set_eq. split; eauto.
      * by rewrite !dict_get_set_ne.
    + intros k. case_bool_decide as Hkn.
      * subst k. by rewrite dict_get_set_eq, Hc.
      * by rewrite dict_get_set_ne.
  - rewrite !dict_get_set_eq. eexists. split; [done|].
    unfold Binary64.keys_agree. simpl. split_and!; try done.
    + intros k. destruct (decide (Model.name model = k)) as [<-|Hne].
      * rewrite !dict_get_set_eq. split; eauto.
      * by rewrite !dict_get_set_ne.
    + intros k. case_bool_decide as Hkn.
      * subst k. by rewrite dict_get_set_eq, Hc.
      * by rewrite !dict_get_set_ne.
Qed.

Lemma entry_after_cons (old : option float) (x : float) (amounts : list float) :
  Binary64.entry_after (Some (default 0%float old + x)%float) amounts
  = Binary64.entry_after old (x :: amounts).
Proof. by destruct amounts. Qed.

Lemma track_all_binary64_run (calls : list (Model * Z * float)) (s : Binary64.state) :
  Binary64.keys_agree (Binary64.cost_tracking s) →
  ∃ s', Binary64.track_all calls s = (Return tt, s')
    ∧ let c := Binary64.cost_tracking s in
      let c' := Binary64.cost_tracking s' in
      Binary64.CostTracking.total_cost c'
      = Binary64.running_sum (Binary64.CostTracking.total_cost c) calls.*2
      ∧ (∀ k, Binary64.dict_get (Binary64.CostTracking.cost_by_model c') k
              = Binary64.entry_after
                  (Binary64.dict_get (Binary64.CostTracking.cost_by_model c) k)
                  (Binary64.costs_of k calls))
      ∧ Binary64.CostTracking.budget_limit c' = Binary64.CostTracking.budget_limit c
      ∧ Binary64.CostTracking.month c' = Binary64.CostTracking.month c.
Proof.
  revert s. induction calls as [|[[model tokens] cost] calls IH]; intros s Hk.
  - exists s. by split_and!.
  - destruct (track_usage_binary64_run model tokens cost s Hk)
      as (s1 & Hrun & Hk1 & Htot & Hget & Hlim & Hmon).
    destruct (IH s1 Hk1) as (s' & Hrun' & Htot' & Hget' & Hlim' & Hmon').
    exists s'. simpl. rewrite Hrun. split; [done|].
    rewrite Htot', Htot, Hlim', Hlim, Hmon', Hmon. split_and!; try done.
    intros k. rewrite Hget', Hget. unfold Binary64.costs_of.
    rewrite filter_cons. simpl. case_bool_decide as Hkn.
    + rewrite decide_True by done. apply entry_after_cons.
    + by rewrite decide_False.
Qed.

Lemma track_all_binary64_one_model (name : string) (calls : list (Model * Z * float))
    (s s' : Binary64.state) (n : Z) :
  Forall (fun call => Model.name call.1.1 = name) calls →
  Binary64.CostTracking.cost_by_model (Binary64.cost_tracking s)
  = [(name, Binary64.CostTracking.total_cost (Binary64.cost_tracking s))] →
  Binary64.CostTracking.tokens_by_model (Binary64.cost_tracking s) = [(name, n)] →
  Binary64.track_all calls s = (Return tt, s') →
  Binary64.CostTracking.cost_by_model (Binary64.cost_tracking s')
  = [(name, Binary64.CostTracking.total_cost (Binary64.cost_tracking s'))].
Proof.
  intros Hall. revert s n.
  induction Hall as [|[[model tokens] cost] calls Hname _ IH]; intros s n Hc Ht Hrun.
  - simpl in Hrun. by simplify_eq.
  - simpl in Hname, Hrun. destruct s as [[mo tot costs toks bl] d]. simpl in *. subst.
    unfold Binary64.track_usage in Hrun. simpl in Hrun.
    rewrite !bool_decide_eq_true_2 in Hrun by done. simpl in Hrun.
    rewrite !bool_decide_eq_true_2 in Hrun by done.
    by eapply IH in Hrun.
Qed.

Lemma remaining_budget_binary64_nonneg (c : Binary64.CostTracking) :
  (0 <=? Binary64.CostTracking.remaining_budget c)%float = true.
Proof.
  unfold Binary64.CostTracking.remaining_budget. cbv zeta.
  set (x := (_ - _)%float). destruct (0 <? x)%float eqn:Hx; [|reflexivity].
  rewrite ltb_spec in Hx. rewrite leb_spec.
  change (Prim2SF 0) with (S754_zero false) in *.
  by destruct (Prim2SF x) as [[]|[]| |[] ? ?].
Qed.

(** C8, as the code has it. Starting from a zeroed period, each of a
    sequence of [track_usage] calls returns, and after the first [n] of them
    [total_cost] is the running binary64 sum of the costs recorded so far,
    added in call order to 0.0; the entry of a model in [cost_by_model] is
    the running binary64 sum of the costs recorded for that model, and a
    model never named has no entry; when every recorded call names the same
    model, that entry is [total_cost] itself and the only one; and the
    remaining budget is the maximum of 0 and [budget_limit - total_cost],
    never below 0. *)
Theorem ledger_running_totals (s : Binary64.state) (month : string) (limit : float)
    (calls : list (Model * Z * float)) (n : nat) :
  Binary64.cost_tracking s = Binary64.fresh_cost_tracking month limit →
  ∃ s', Binary64.track_all (take n calls) s = (Return tt, s')
    ∧ let c := Binary64.cost_tracking s' in
      let recorded := take n calls in
      Binary64.CostTracking.total_cost c = Binary64.running_sum 0%float recorded.*2
      ∧ (∀ name,
           Binary64.dict_get (Binary64.CostTracking.cost_by_model c) name
           = match Binary64.costs_of name recorded with
             | [] => None
             | amounts => Some (Binary64.running_sum 0%float amounts)
             end)
      ∧ (∀ name, recorded ≠ [] →
           Forall (fun call => Model.name call.1.1 = name) recorded →
           Binary64.CostTracking.cost_by_model c
           = [(name, Binary64.CostTracking.total_cost c)])
      ∧ Binary64.CostTracking.remaining_budget c
        = (if (0 <? limit - Binary64.CostTracking.total_cost c)%float
           then (limit - Binary64.CostTracking.total_cost c)%float else 0%float)
      ∧ (0 <=? Binary64.CostTracking.remaining_budget c)%float = true.
Proof.
  intros Hfresh.
  destruct (track_all_binary64_run (take n calls) s) as (s' & Hrun & Htot & Hget & Hlim & _).
  { rewrite Hfresh. intros k. simpl. split; intros [? ?]; done. }
  exists s'. split; [done|]. cbv zeta. rewrite Hfresh in Htot, Hget, Hlim.
  simpl in Htot, Hget, Hlim. split_and!.
  - done.
  - intros name. rewrite Hget. by destruct (Binary64.costs_of name (take n calls)).
  - intros name Hne Hall.
    destruct (take n calls) as [|[[model tokens] cost] rest] eqn:Hcalls; [done|].
    apply Forall_cons in Hall as [Hname Hall]. simpl in Hname, Hrun.
    destruct s as [c d]. simpl in Hfresh. subst c.
    unfold Binary64.track_usage in Hrun. simpl in Hrun.
    rewrite !bool_decide_eq_true_2 in Hrun by done. simpl in Hrun.
    rewrite Hname in Hrun.
    by eapply (track_all_binary64_one_model name rest) in Hrun.
  - unfold Binary64.CostTracking.remaining_budget. by rewrite Hlim.
  - apply remaining_budget_binary64_nonneg.
Qed.

#[warnings="-inexact-float"] Lemma ledger_running_totals_witness :
  ∃ s', Binary64.track_all (take 3 Binary64.rounding_calls) Binary64.fresh_state
        = (Return tt, s')
    ∧ let c := Binary64.cost_tracking s' in
      let recorded := take 3 Binary64.rounding_calls in
      Binary64.CostTracking.total_cost c = Binary64.running_sum 0%float recorded.*2
      ∧ (∀ name,
           Binary64.dict_get (Binary64.CostTracking.cost_by_model c) name
           = match Binary64.costs_of name recorded with
             | [] => None
             | amounts => Some (Binary64.running_sum 0%float amounts)
             end)
      ∧ (∀ name, recorded ≠ [] →
           Forall (fun call => Model.name call.1.1 = name) recorded →
           Binary64.CostTracking.cost_by_model c
           = [(name, Binary64.CostTracking.total_cost c)])
      ∧ Binary64.CostTracking.remaining_budget c
        = (if (0 <? 10 - Binary64.CostTracking.total_cost c)%float
           then (10 - Binary64.CostTracking.total_cost c)%float else 0%float)
      ∧ (0 <=? Binary64.CostTracking.remaining_budget c)%float = true.
Proof.
  apply (ledger_running_totals Binary64.fresh_state "2024-01" 10%float
           Binary64.rounding_calls 3).
  reflexivity.
Defined.

(** C8, as stated, fails: three calls with non-negative costs on a zeroed
    period, 0.1 for one model, then 0.2 and 0.3 for another, all return and
    leave [total_cost] at 0.6000000000000001 and the entries 0.1 and 0.5,
    whose sum is 0.6, added plainly or with the compensation of Python 3.12;
    and the compensated sum of the three recorded costs is 0.6 as well. *)
#[warnings="-inexact-float"] Lemma rounded_total_is_not_the_sum_of_entries :
  ∃ s', Binary64.track_all Binary64.rounding_calls Binary64.fresh_state = (Return tt, s')
    ∧ Forall (fun call => (0 <=? call.2)%float = true) Binary64.rounding_calls
    ∧ let c := Binary64.cost_tracking s' in
      let entries := Binary64.values (Binary64.CostTracking.cost_by_model c) in
      Binary64.CostTracking.total_cost c = 0.6000000000000001%float
      ∧ entries = [0.1; 0.5]%float
      ∧ Binary64.plain_sum entries = 0.6%float
      ∧ Binary64.compensated_sum entries = 0.6%float
      ∧ (Binary64.CostTracking.total_cost c =? Binary64.plain_sum entries)%float = false
      ∧ (Binary64.CostTracking.total_cost c =? Binary64.compensated_sum entries)%float
        = false
      ∧ (Binary64.CostTracking.total_cost c
         =? Binary64.compensated_sum Binary64.rounding_calls.*2)%float = false.
Proof.
  eexists. split; [reflexivity|]. split; [by repeat constructor|].
  cbv zeta. by split_and!.
Qed.

Lemma list_to_map_reverse {A} (l : list (string * A)) :
  NoDup l.*1 → list_to_map (M := gmap string A) (reverse l) = list_to_map l.
Proof.
  intros Hnd. apply list_to_map_proper.
  - by rewrite fmap_reverse, reverse_Permutation.
  - apply reverse_Permutation.
Qed.

Lemma dict_roundtrip {A} (enc : A → json) (dec : json → option A) (d : gmap string A) :
  (∀ a, dec (enc a) = Some a) → json_dict dec (dump_dict enc d) = Some d.
Proof.
  intros Hdec. unfold json_dict, dump_dict.
  rewrite (mapM_fmap_Some _ (prod_map id enc)).
  - simpl. unfold dict_of_fields. f_equal.
    rewrite list_to_map_reverse by apply NoDup_fst_map_to_list.
    apply list_to_map_to_list.
  - intros [k a]. simpl. by rewrite Hdec.
Qed.

Lemma CostTracking_roundtrip (c : CostTracking) :
  CostTracking_of_kwargs (cost_tracking_dict c) = Return c.
Proof.
  destruct c as [mo tot costs toks bl]. unfold CostTracking_of_kwargs. simpl.
  pose proof (dict_roundtrip JFloat json_number costs (fun _ => eq_refl)) as Hcosts.
  pose proof (dict_roundtrip JInt json_int toks (fun _ => eq_refl)) as Htoks.
  unfold json_dict, dump_dict in Hcosts, Htoks. by rewrite Hcosts, Htoks.
Qed.

Lemma load_saved (saved : CostTracking) (limit : Qc) (s : state) :
  disk s = Some (dump_cost_tracking saved) →
  _load_cost_tracking limit (wall_month s) s
  = (Return (if bool_decide (CostTracking.month saved = wall_month s) then saved
             else fresh_cost_tracking (wall_month s) limit), s).
Proof.
  intros Hd. unfold _load_cost_tracking, mbind, M_bind, bind, gets. rewrite Hd.
  unfold dump_cost_tracking. cbv beta iota.
  change (json_get "month" _) with (Some (JStr (CostTracking.month saved))).
  cbv beta iota. unfold json_str_eqb. case_bool_decide; [|done].
  unfold lift. by rewrite CostTracking_roundtrip.
Qed.

(** C9. A period saved by [save_cost_tracking] and loaded again by a router
    constructed while the wall-clock month is the month of the period is
    the same period in every field: month, total, limit and both per-model
    dictionaries. *)
Theorem save_then_load (s s' : state) (limit : Qc) :
  disk s' = disk (save_cost_tracking s).2 →
  wall_month s' = CostTracking.month (cost_tracking (router s)) →
  ∃ s'', CostOptimizedRouter__init__ limit s' = (Return tt, s'')
    ∧ cost_tracking (router s'') = cost_tracking (router s).
Proof.
  intros Hd Hw. unfold CostOptimizedRouter__init__, mbind, M_bind, bind at 1, gets at 1.
  unfold bind. rewrite (load_saved (cost_tracking (router s))) by done.
  rewrite bool_decide_eq_true_2 by done. eexists. split; [done|]. done.
Qed.

Lemma save_then_load_witness :
  ∃ s'', CostOptimizedRouter__init__ (Q2Qc 25)
           (save_cost_tracking (state_with busy_period "2024-01")).2 = (Return tt, s'')
    ∧ cost_tracking (router s'') = busy_period.
Proof.
  apply (save_then_load (state_with busy_period "2024-01")
           (save_cost_tracking (state_with busy_period "2024-01")).2 (Q2Qc 25)).
  - reflexivity.
  - reflexivity.
Defined.

Lemma track_usage_total (model : Model) (tokens : Z) (cost : Qc) (s : state) :
  let c := cost_tracking (router s) in
  let c' := cost_tracking (router (track_usage model tokens cost s).2) in
  CostTracking.month c' = CostTracking.month c
  ∧ CostTracking.total_cost c' = (CostTracking.total_cost c + cost)%Qc
  ∧ CostTracking.budget_limit c' = CostTracking.budget_limit c.
Proof.
  destruct s as [[lim cm [mo tot costs toks bl]] ms d w cl lg an].
  unfold track_usage, mbind, M_bind, bind, update_cost_tracking, modify,
    gets, save_cost_tracking, lift, dict_add, set_cost_tracking, set_router, set_disk,
    set_total_cost, set_cost_by_model, set_tokens_by_model, mret, M_ret, ret. simpl.
  repeat (case_match; simpl in *; simplify_eq); done.
Qed.

Lemma track_usage_ignores_clock (model : Model) (tokens : Z) (cost : Qc) (s : state)
    (now : string) :
  (track_usage model tokens cost (set_wall_month now s)).1
  = (track_usage model tokens cost s).1
  ∧ router (track_usage model tokens cost (set_wall_month now s)).2
    = router (track_usage model tokens cost s).2.
Proof.
  destruct s as [[lim cm [mo tot costs toks bl]] ms d w cl lg an].
  unfold track_usage, mbind, M_bind, bind, update_cost_tracking, modify,
    gets, save_cost_tracking, lift, dict_add, set_cost_tracking, set_router, set_disk,
    set_total_cost, set_cost_by_model, set_tokens_by_model, mret, M_ret, ret,
    set_wall_month. simpl.
  repeat (case_match; simpl in *; simplify_eq); done.
Qed.

(** C3, as the code has it. The stored month is compared with the wall-clock
    month in one place, the construction of the router: built over a file
    saved in another month it holds a fresh period for the wall-clock month,
    with a zero total and empty dictionaries, without raising, and the file
    keeps the old period until the next save. [track_usage] does not read
    the clock: whatever the wall-clock month, it keeps the stored month and
    adds the cost to the stored total; [remaining_budget] is a function of
    the stored period alone. *)
Theorem month_checked_at_construction_only (s : state) (saved : CostTracking)
    (limit : Qc) :
  disk s = Some (dump_cost_tracking saved) →
  CostTracking.month saved ≠ wall_month s →
  (∃ s', CostOptimizedRouter__init__ limit s = (Return tt, s')
     ∧ cost_tracking (router s') = fresh_cost_tracking (wall_month s) limit
     ∧ CostTracking.total_cost (cost_tracking (router s')) = 0%Qc
     ∧ CostTracking.cost_by_model (cost_tracking (router s')) = ∅
     ∧ CostTracking.tokens_by_model (cost_tracking (router s')) = ∅
     ∧ disk s' = disk s)
  ∧ (∀ model tokens cost now (s0 : state),
       let c := cost_tracking (router s0) in
       let c' := cost_tracking
                   (router (track_usage model tokens cost (set_wall_month now s0)).2) in
       CostTracking.month c' = CostTracking.month c
       ∧ CostTracking.total_cost c' = (CostTracking.total_cost c + cost)%Qc).
Proof.
  intros Hd Hm. split.
  - unfold CostOptimizedRouter__init__, mbind, M_bind, bind at 1, gets at 1.
    unfold bind. rewrite (load_saved saved) by done.
    rewrite bool_decide_eq_false_2 by done. eexists. split; [done|]. done.
  - intros model tokens cost now s0.
    destruct (track_usage_ignores_clock model tokens cost s0 now) as [_ ->].
    destruct (track_usage_total model tokens cost s0) as (? & ? & _). done.
Qed.

Lemma month_checked_at_construction_only_witness :
  (∃ s', CostOptimizedRouter__init__ (Q2Qc 10)
           (set_wall_month "2024-02" (save_cost_tracking (state_with busy_period "2024-01")).2)
         = (Return tt, s')
     ∧ cost_tracking (router s') = fresh_cost_tracking "2024-02" (Q2Qc 10)
     ∧ CostTracking.total_cost (cost_tracking (router s')) = 0%Qc
     ∧ CostTracking.cost_by_model (cost_tracking (router s')) = ∅
     ∧ CostTracking.tokens_by_model (cost_tracking (router s')) = ∅
     ∧ disk s' = Some (dump_cost_tracking busy_period))
  ∧ (∀ model tokens cost now (s0 : state),
       let c := cost_tracking (router s0) in
       let c' := cost_tracking
                   (router (track_usage model tokens cost (set_wall_month now s0)).2) in
       CostTracking.month c' = CostTracking.month c
       ∧ CostTracking.total_cost c' = (CostTracking.total_cost c + cost)%Qc).
Proof.
  apply (month_checked_at_construction_only
           (set_wall_month "2024-02" (save_cost_tracking (state_with busy_period "2024-01")).2)
           busy_period (Q2Qc 10)).
  - reflexivity.
  - simpl. discriminate.
Defined.

(** C3, as stated, fails: a router holding the period of 2024-01 with 7.5
    spent, asked to record a usage of cost 0 when the wall-clock month is
    2024-02, keeps the month 2024-01 and the total 7.5, and reports 2.5 as
    the remaining budget. *)
Lemma stale_period_is_not_reset :
  ¬ (CostTracking.total_cost
       (cost_tracking (router (track_usage llama_7b 0 0%Qc stale_state).2)) = 0%Qc)
  ∧ CostTracking.month
      (cost_tracking (router (track_usage llama_7b 0 0%Qc stale_state).2)) = "2024-01"
  ∧ CostTracking.remaining_budget (cost_tracking (router stale_state)) = Q2Qc 2.5
  ∧ wall_month stale_state = "2024-02".
Proof.
  split_and!.
  - intros H. apply (f_equal this) in H. vm_compute in H. discriminate.
  - reflexivity.
  - apply Qc_is_canon. reflexivity.
  - reflexivity.
Qed.

(** ** The dispatcher *)

Lemma preserves_ret {A} (a : A) : preserves (ret a).
Proof. done. Qed.

Lemma preserves_mret {A} (a : A) : preserves (mret (M := M) a).
Proof. done. Qed.

Lemma preserves_raise {A} (e : exn) : preserves (raise (A := A) e).
Proof. done. Qed.

Lemma preserves_lift {A} (r : result A) : preserves (lift r).
Proof. done. Qed.

Lemma preserves_gets {A} (f : state → A) : preserves (gets f).
Proof. done. Qed.

Lemma preserves_logger (e : log_entry) : preserves (logger e).
Proof. done. Qed.

Lemma preserves_add_analysed (i : interaction) : preserves (modify (add_analysed i)).
Proof. done. Qed.

Lemma preserves_time_time : preserves time_time.
Proof. intros s. unfold time_time. by destruct (clock s). Qed.

Lemma preserves_bind {A B} (m : M A) (k : A → M B) :
  preserves m → (∀ a, preserves (k a)) → preserves (m ≫= k).
Proof.
  intros Hm Hk s. unfold mbind, M_bind, bind. specialize (Hm s).
  destruct (m s) as [[a|e] s']; simpl in *; [|done]. by rewrite Hk.
Qed.

Lemma preserves_try_except {A} (body : M A) (handler : exn → M A) :
  preserves body → (∀ e, preserves (handler e)) → preserves (try_except body handler).
Proof.
  intros Hm Hk s. unfold try_except. specialize (Hm s).
  destruct (body s) as [[a|e] s']; simpl in *; [done|]. by rewrite Hk.
Qed.

Create HintDb frame.
#[global] Hint Resolve preserves_ret preserves_mret preserves_raise preserves_lift
  preserves_gets preserves_logger preserves_add_analysed preserves_time_time : frame.

Ltac frame :=
  repeat first
    [ solve [auto with frame]
    | apply preserves_bind; [|intros ?]
    | apply preserves_try_except; [|intros ?]
    | progress case_match ].

Section EngineProperties.

Variable ollama_post : Model → string → Z → ollama_reply.
Variable environ : string → option string.
Variable analysis_error : interaction → option exn.
Variable _build_prompt : Task → string.
Variable _count_tokens : string → Z.
Variable _extract_actions_and_reasoning : string → list Action * string.

Local Abbreviation invoke :=
  (_process_with_model ollama_post environ _build_prompt _count_tokens
     _extract_actions_and_reasoning).
Local Abbreviation dispatch :=
  (process_task ollama_post environ analysis_error _build_prompt _count_tokens
     _extract_actions_and_reasoning).
Local Abbreviation fallback :=
  (try_fallback ollama_post environ _build_prompt _count_tokens
     _extract_actions_and_reasoning).
Local Abbreviation fallback_outcome :=
  (fallback_outcome ollama_post environ _build_prompt _count_tokens
     _extract_actions_and_reasoning).

Lemma preserves_invoke (task : Task) (model : Model) : preserves (invoke task model).
Proof.
  unfold _process_with_model, _process_with_ollama, _process_with_free_api,
    _process_with_premium_api.
  frame.
Qed.

Lemma preserves_analyze (i : interaction) : preserves (analyze_interaction analysis_error i).
Proof. unfold analyze_interaction. frame. Qed.

Lemma preserves_dispatch (task : Task) : preserves (dispatch task).
Proof.
  unfold process_task, try_primary, try_fallback, final_error.
  pose proof preserves_invoke. pose proof preserves_analyze.
  frame.
Qed.

Lemma time_time_run (s : state) :
  ∃ t s', time_time s = (Return t, s')
    ∧ router s' = router s ∧ available_models s' = available_models s.
Proof. unfold time_time. destruct (clock s); eauto. Qed.

Lemma invoke_returns (task : Task) (model : Model) (s s' : state) (r : AIResponse) :
  invoke task model s = (Return r, s') →
  Model.type model = LOCAL ∧ AIResponse.model_used r = Model.name model
  ∧ AIResponse.success r = true ∧ AIResponse.cost r = 0%Qc
  ∧ AIResponse.fallback_used r = false.
Proof.
  unfold _process_with_model, _process_with_ollama, _process_with_free_api,
    _process_with_premium_api, raise, mbind, M_bind, bind, logger, modify.
  intros H. repeat (case_match; simplify_eq); try discriminate.
  all: unfold ret in H; simplify_eq; done.
Qed.

Lemma invoke_free (task : Task) (model : Model) (s : state) :
  Model.type model = FREE_API →
  invoke task model s = (Raise (NotImplementedError "Free API integration pending"), s).
Proof. intros Ht. unfold _process_with_model. by rewrite Ht. Qed.

Lemma invoke_premium (task : Task) (model : Model) (s : state) :
  Model.type model = PREMIUM_API →
  invoke task model s
  = (Raise (Exception ("No API key found for " +:+ Model.name model)), s)
  ∨ invoke task model s
    = (Raise (NotImplementedError "Premium API integration pending"), s).
Proof.
  intros Ht. unfold _process_with_model, _process_with_premium_api. rewrite Ht.
  repeat case_match; auto.
Qed.

Lemma get_fallback_elem (models : list Model) (failed fb : Model) :
  _get_fallback_model models failed = Some fb → fb ∈ models.
Proof.
  unfold _get_fallback_model, cloud_models, local_models. intros H.
  assert (Hhead : ∀ (P : Model → Prop) `{∀ m, Decision (P m)} x xs,
            filter P models = x :: xs → x ∈ models).
  { intros P ? x xs Hf. assert (Hx : x ∈ filter P models) by (rewrite Hf; left).
    by apply list_elem_of_filter in Hx as [_ ?]. }
  repeat case_match; simplify_eq; eauto;
    match goal with
    | H : List.find _ _ = Some _ |- _ => apply find_some in H as [?%list_elem_of_In _]; done
    end.
Qed.

Lemma final_error_run (t0 : Qc) (s : state) :
  ∃ t s', final_error t0 s = (Return (error_response t), s').
Proof.
  unfold final_error, mbind, M_bind, bind.
  destruct (time_time_run s) as (t & s' & -> & _). eauto.
Qed.

Lemma fallback_run (task : Task) (t0 : Qc) (selected : Model) (e : exn) (s : state) :
  ∃ r s', fallback task t0 selected e s = (Return r, s')
    ∧ AIResponse.fallback_used r = true
    ∧ fallback_outcome task (available_models s) selected r
    ∧ ((∀ fb s0, _get_fallback_model (available_models s) selected = Some fb
                 → raises (invoke task fb s0).1)
       → ∃ t, r = error_response t).
Proof.
  unfold try_fallback, mbind, M_bind, bind, logger, modify, gets, try_except. simpl.
  destruct (_get_fallback_model (available_models s) selected) as [fb|] eqn:Hfb.
  - destruct (invoke task fb (add_log (LogFailed (Model.name selected) e) s))
      as [[r0|e2] s1] eqn:Hinv.
    + destruct (time_time_run s1) as (t & s2 & -> & _).
      eexists _, _. split; [done|]. split; [done|]. split.
      * right. by eexists _, _, _, _, _.
      * intros Hfail.
        specialize (Hfail fb (add_log (LogFailed (Model.name selected) e) s) eq_refl).
        by rewrite Hinv in Hfail.
    + destruct (final_error_run t0 (add_log (LogFallbackFailed e2) s1)) as (t & s2 & ->).
      eexists _, _. split; [done|]. split; [done|]. split; [left|]; eauto.
  - destruct (final_error_run t0 (add_log (LogFailed (Model.name selected) e) s))
      as (t & s2 & ->).
    eexists _, _. split; [done|]. split; [done|]. split; [left|]; eauto.
Qed.

Lemma dispatch_raises (task : Task) (s : state) (e : exn) :
  route_task (cost_tracking (router s)) task (available_models s) = Raise e →
  ∃ s', dispatch task s = (Raise e, s').
Proof.
  intros Hr. unfold process_task, mbind, M_bind, bind.
  destruct (time_time_run s) as (t & s1 & -> & Hrt & Hav).
  unfold gets, lift, id. rewrite Hrt, Hav, Hr. eauto.
Qed.

Lemma dispatch_returns (task : Task) (s : state) (selected : Model) :
  route_task (cost_tracking (router s)) task (available_models s) = Return selected →
  ∃ r s', dispatch task s = (Return r, s')
    ∧ ((∃ r0 s0 s1 t, invoke task selected s0 = (Return r0, s1)
                      ∧ r = AIResponse.set_processing_time r0 t)
       ∨ (AIResponse.fallback_used r = true
          ∧ fallback_outcome task (available_models s) selected r))
    ∧ ((∀ m s0, m ∈ available_models s → raises (invoke task m s0).1)
       → ∃ t, r = error_response t).
Proof.
  intros Hr. unfold process_task, mbind, M_bind, bind.
  destruct (time_time_run s) as (t0 & s1 & -> & Hrt & Hav).
  unfold gets, lift, id. rewrite Hrt, Hav, Hr.
  unfold logger, modify, try_except.
  set (s2 := add_log _ s1).
  assert (Hav2 : available_models s2 = available_models s) by done.
  assert (Hfb : ∀ e s3, static s3 = static s2 →
    ∃ r s', fallback task t0 selected e s3 = (Return r, s')
      ∧ (AIResponse.fallback_used r = true
         ∧ fallback_outcome task (available_models s) selected r)
      ∧ ((∀ m s0, m ∈ available_models s → raises (invoke task m s0).1)
         → ∃ t, r = error_response t)).
  { intros e s3 Hs3.
    assert (Hav3 : available_models s3 = available_models s).
    { rewrite <- Hav2. unfold static in Hs3. by simplify_eq. }
    destruct (fallback_run task t0 selected e s3) as (r & s' & Hrun & Hfu & Hout & Hall).
    rewrite Hav3 in Hout, Hall. exists r, s'. split; [done|]. split; [done|].
    intros Hfail. apply Hall. intros fb s0 Hfb. apply Hfail.
    by eapply get_fallback_elem. }
  unfold try_primary, mbind, M_bind, bind.
  destruct (invoke task selected s2) as [[r0|e] s3] eqn:Hinv.
  - pose proof (preserves_invoke task selected s2) as Hst. rewrite Hinv in Hst.
    destruct (time_time_run s3) as (t & s4 & Ht & _).
    pose proof (preserves_time_time s3) as Hst4. rewrite Ht in *. simpl in Hst, Hst4.
    unfold analyze_interaction, mbind, M_bind, bind, modify.
    destruct (analysis_error _) as [e|] eqn:Han.
    + destruct (Hfb e (add_analysed
        (mkInteraction (Task.content task)
           (AIResponse.content (AIResponse.set_processing_time r0 (t - t0)))
           (Model.name selected) (t - t0) true) s4)) as (r & s' & Hrun & Hout & Hall).
      { transitivity (static s4); [done|]. by rewrite Hst4. }
      unfold raise. exists r, s'. split; [exact Hrun|]. split; [by right|done].
    + unfold ret. eexists _, _. split; [done|]. split.
      * left. by eexists _, _, _, _.
      * intros Hfail. specialize (Hfail selected s2).
        rewrite Hinv in Hfail. destruct Hfail.
        by eapply route_task_available.
  - pose proof (preserves_invoke task selected s2) as Hst. rewrite Hinv in Hst.
    destruct (Hfb e s3 Hst) as (r & s' & Hrun & Hout & Hall).
    exists r, s'. split; [exact Hrun|]. split; [by right|done].
Qed.

Lemma error_response_terminal (t : Qc) :
  AIResponse.success (error_response t) = false
  ∧ AIResponse.cost (error_response t) = 0%Qc
  ∧ AIResponse.tokens_used (error_response t) = 0%Z.
Proof. done. Qed.

(** C1, as the code has it. [process_task] never calls [track_usage]: whether
    an attempt succeeds or every attempt fails, and whatever model answers,
    the router with its ledger and the ledger file are after the dispatch
    what they were before it. *)
Theorem dispatch_never_records (task : Task) (s : state) :
  router (dispatch task s).2 = router s ∧ disk (dispatch task s).2 = disk s.
Proof.
  pose proof (preserves_dispatch task s) as H. unfold static in H. by simplify_eq.
Qed.

(** C4, as the code has it. [route_task] is called outside the [try]: when
    the router finds no model its [ValueError] leaves [process_task]. Once
    the router has returned a model, [process_task] returns a response and
    does not raise, and when the invocation of every available model raises,
    the response is the terminal one: [success] false, cost 0, no tokens. *)
Theorem dispatch_raises_only_from_router (task : Task) (s : state) :
  match route_task (cost_tracking (router s)) task (available_models s) with
  | Raise e => ∃ s', dispatch task s = (Raise e, s')
  | Return _ =>
    ∃ r s', dispatch task s = (Return r, s')
      ∧ ((∀ m s0, m ∈ available_models s → raises (invoke task m s0).1)
         → AIResponse.success r = false ∧ AIResponse.cost r = 0%Qc
           ∧ AIResponse.tokens_used r = 0%Z)
  end.
Proof.
  destruct (route_task _ _ _) as [selected|e] eqn:Hr.
  - destruct (dispatch_returns task s selected Hr) as (r & s' & Hrun & _ & Hall).
    exists r, s'. split; [done|]. intros Hfail.
    destruct (Hall Hfail) as [t ->]. apply error_response_terminal.
  - by apply dispatch_raises.
Qed.

End EngineProperties.

(** C1, as stated, fails: the local model answers a simple task, the
    response is a success, and the router is not the one a single
    [track_usage] for that model would have left. *)
Lemma successful_dispatch_is_not_recorded :
  ∃ r s', dispatch_with ok_post (task_of SIMPLE) fresh_state = (Return r, s')
    ∧ AIResponse.success r = true
    ∧ AIResponse.model_used r = Model.name llama_7b
    ∧ ¬ (router s'
         = router (track_usage llama_7b (AIResponse.tokens_used r)
                     (usage_cost llama_7b (AIResponse.tokens_used r)) fresh_state).2).
Proof.
  eexists _, _. split; [reflexivity|]. split; [reflexivity|]. split; [reflexivity|].
  intros H.
  apply (f_equal (fun r => CostTracking.tokens_by_model (cost_tracking r) !! "llama-7b")) in H.
  vm_compute in H. discriminate.
Qed.

(** C4, as stated, fails: with an empty registry the [ValueError] of the
    router leaves [process_task]; no response is returned. *)
Lemma dispatch_raises_without_models :
  (dispatch_with ok_post (task_of SIMPLE) (state_of (period 0%Qc) [] "2024-01")).1
  = Raise (ValueError "No models available for simple tasks")
  ∧ ¬ (∃ r s', dispatch_with ok_post (task_of SIMPLE) (state_of (period 0%Qc) [] "2024-01")
               = (Return r, s')).
Proof. split; [reflexivity|]. intros (r & s' & H). discriminate H. Qed.

Lemma dispatch_raises_only_from_router_witness :
  ∃ r s', dispatch_with down_post (task_of SIMPLE) fresh_state = (Return r, s')
    ∧ AIResponse.success r = false ∧ AIResponse.cost r = 0%Qc
    ∧ AIResponse.tokens_used r = 0%Z.
Proof.
  pose proof (dispatch_raises_only_from_router down_post no_environ no_analysis_error
                prompt_of estimate_tokens no_actions (task_of SIMPLE) fresh_state) as H.
  assert (Hr : route_task (cost_tracking (router fresh_state)) (task_of SIMPLE)
                 (available_models fresh_state) = Return llama_7b) by reflexivity.
  rewrite Hr in H. destruct H as (r & s' & Hrun & Hterminal).
  exists r, s'. split; [exact Hrun|]. apply Hterminal.
  intros m s0 Hm. apply list_elem_of_In in Hm.
  destruct Hm as [<-|[<-|[]]]; exact I.
Defined.

(** * Further properties of the code *)

(** ** Selection *)

Lemma key_lt_spec (x y : Model) :
  key_lt x y = true
  ↔ (Model.quality_score x < Model.quality_score y)%Z
    ∨ (Model.quality_score x = Model.quality_score y
       ∧ (Model.speed_score x < Model.speed_score y)%Z).
Proof.
  unfold key_lt. rewrite orb_true_iff, andb_true_iff, !Z.ltb_lt, Z.eqb_eq. tauto.
Qed.

Lemma key_lt_trans (x y z : Model) :
  key_lt x y = true → key_lt y z = true → key_lt x z = true.
Proof. rewrite !key_lt_spec. lia. Qed.

Lemma key_lt_neg_trans (x y z : Model) :
  key_lt x y = false → key_lt y z = false → key_lt x z = false.
Proof.
  rewrite <- !not_true_iff_false, !key_lt_spec. lia.
Qed.

Lemma key_lt_false_lt (x y z : Model) :
  key_lt x y = false → key_lt z y = true → key_lt x z = false.
Proof.
  rewrite <- !not_true_iff_false, !key_lt_spec. lia.
Qed.

(** The head of the sorted list is the first element of maximal key. *)
Lemma sort_desc_first_max (l : list Model) (best : Model) (rest : list Model) :
  sort_desc l = best :: rest →
  ∃ before after, l = before ++ best :: after
    ∧ Forall (fun x => key_lt x best = true) before
    ∧ Forall (fun x => key_lt best x = false) after.
Proof.
  revert best rest. induction l as [|x l IH]; intros best rest Hs; [done|].
  simpl in Hs. destruct (sort_desc l) as [|y r] eqn:Hl.
  - simpl in Hs. simplify_eq.
    pose proof (sort_desc_Permutation l) as Hp. rewrite Hl in Hp.
    apply Permutation_nil_l in Hp. subst l.
    exists [], []. by repeat constructor.
  - destruct (IH y r eq_refl) as (before & after & -> & Hb & Ha).
    simpl in Hs. destruct (key_lt x y) eqn:Hxy; simplify_eq.
    + exists (x :: before), after. split; [done|]. split; [by constructor|exact Ha].
    + exists [], (before ++ y :: after). split; [done|]. split; [constructor|].
      apply Forall_app. split; [|constructor].
      * eapply Forall_impl; [exact Hb|]. intros z Hz. by eapply key_lt_false_lt.
      * exact Hxy.
      * eapply Forall_impl; [exact Ha|]. intros z Hz. by eapply key_lt_neg_trans.
Qed.

Lemma select_best_model_sorted_pool (models : list Model) (task : Task) (m : Model) :
  _select_best_model models task = Return m →
  ∃ rest, sort_desc (selection_pool models task) = m :: rest.
Proof.
  unfold _select_best_model, selection_pool. destruct models as [|m0 ms]; [done|].
  cbv zeta. destruct (Task.requires_code_gen task); [destruct (filter _ _)|];
    (destruct (sort_desc _) as [|best rest]; [done|]; intros [= <-]; eauto).
Qed.

(** X1. The model [_select_best_model] returns is the first candidate of
    maximal (quality_score, speed_score) in the pool it sorts: every
    candidate before it in the list is strictly worse and no candidate after
    it is strictly better. *)
Theorem select_best_model_first_max (models : list Model) (task : Task) (m : Model) :
  _select_best_model models task = Return m →
  ∃ before after, selection_pool models task = before ++ m :: after
    ∧ Forall (fun x => key_lt x m = true) before
    ∧ Forall (fun x => key_lt m x = false) after.
Proof.
  intros [rest Hs]%select_best_model_sorted_pool. by eapply sort_desc_first_max.
Qed.

Lemma select_best_model_first_max_witness :
  ∃ before after, selection_pool [groq; llama_7b; gpt_x] (task_of SIMPLE) = before ++ gpt_x :: after
    ∧ Forall (fun x => key_lt x gpt_x = true) before
    ∧ Forall (fun x => key_lt gpt_x x = false) after.
Proof. apply select_best_model_first_max. reflexivity. Defined.

(** X2. For a task that generates code, the selected model carries the
    "code" capability whenever some candidate does; when none does the
    selection still returns a candidate instead of failing. *)
Theorem select_best_model_prefers_code (models : list Model) (task : Task) :
  Task.requires_code_gen task = true →
  models ≠ [] →
  ∃ m, _select_best_model models task = Return m ∧ m ∈ models
    ∧ ((∃ x, x ∈ models ∧ "code" ∈ Model.capabilities x)
       → "code" ∈ Model.capabilities m).
Proof.
  intros Hcg Hne. destruct (select_best_model_returns models task Hne) as [m Hm].
  exists m. split; [done|]. split; [by eapply select_best_model_elem|].
  intros (x & Hx & Hcode).
  destruct (select_best_model_sorted_pool _ _ _ Hm) as [rest Hs].
  assert (Hin : m ∈ selection_pool models task).
  { rewrite <- (sort_desc_Permutation (selection_pool models task)), Hs. left. }
  unfold selection_pool in Hin. rewrite Hcg in Hin.
  destruct (filter _ models) as [|c cs] eqn:Hf.
  - assert (Hxf : x ∈ filter (fun m => has_code m = true) models).
    { apply list_elem_of_filter. split; [|done]. unfold has_code. by apply bool_decide_eq_true. }
    rewrite Hf in Hxf. by apply elem_of_nil in Hxf.
  - rewrite <- Hf in Hin. apply list_elem_of_filter in Hin as [Hc _].
    unfold has_code in Hc. by apply bool_decide_eq_true in Hc.
Qed.

Lemma select_best_model_prefers_code_witness :
  ∃ m, _select_best_model [gpt_x; llama_7b] code_task = Return m
    ∧ m ∈ [gpt_x; llama_7b]
    ∧ ((∃ x, x ∈ [gpt_x; llama_7b] ∧ "code" ∈ Model.capabilities x)
       → "code" ∈ Model.capabilities m).
Proof. apply select_best_model_prefers_code; [reflexivity | discriminate]. Defined.

(** ** Routing *)

Lemma route_task_premium_reserve (c : CostTracking) (task : Task)
    (models : list Model) (m : Model) :
  route_task c task models = Return m →
  Model.type m = PREMIUM_API →
  ∃ reserve, premium_reserve (Task.complexity task) = Some reserve
    ∧ (reserve < CostTracking.remaining_budget c)%Qc.
Proof.
  intros Hr Hp. apply route_task_elem in Hr. unfold open_pools in Hr.
  unfold local_models, free_api_models, premium_models, gt in Hr.
  assert (Hl : ¬ m ∈ filter (fun m => Model.type m = LOCAL) models).
  { intros [Ht _]%list_elem_of_filter. congruence. }
  assert (Hf : ¬ m ∈ filter (fun m => Model.type m = FREE_API ∧ Model.is_free m = true) models).
  { intros [[Ht _] _]%list_elem_of_filter. congruence. }
  case_bool_decide.
  - destruct (Task.complexity task); rewrite ?elem_of_app in Hr; tauto.
  - rewrite !elem_of_app in Hr. destruct Hr as [?|[?|Hr]]; [done..|].
    destruct (premium_reserve (Task.complexity task)) as [reserve|];
      [|by apply elem_of_nil in Hr].
    exists reserve. split; [done|]. case_bool_decide; [done|by apply elem_of_nil in Hr].
Qed.

(** X3. [route_task] returns a premium model only for a medium, complex or
    critical task whose remaining budget is strictly above the reserve of
    that complexity (2, 5 and 1); a simple task never gets one. *)
Theorem premium_only_above_reserve (c : CostTracking) (task : Task)
    (models : list Model) (m : Model) :
  route_task c task models = Return m →
  Model.type m = PREMIUM_API →
  ∃ reserve, premium_reserve (Task.complexity task) = Some reserve
    ∧ (reserve < CostTracking.remaining_budget c)%Qc.
Proof. apply route_task_premium_reserve. Qed.

Lemma premium_only_above_reserve_witness :
  ∃ reserve, premium_reserve (Task.complexity (task_of CRITICAL)) = Some reserve
    ∧ (reserve < CostTracking.remaining_budget (period (Q2Qc 8.5)))%Qc.
Proof.
  apply (premium_only_above_reserve _ _ [llama_7b; gpt_x] gpt_x); reflexivity.
Defined.

(** X4. With budget left, a medium task is routed to a free model or to a
    local model of quality at least 7 whenever the registry holds one: no
    premium model and no weaker local model is chosen then. *)
Theorem medium_prefers_free_or_good_local (c : CostTracking) (task : Task)
    (models : list Model) :
  ¬ (CostTracking.remaining_budget c ≤ 0)%Qc →
  Task.complexity task = MEDIUM →
  free_api_models models
    ++ filter (fun m => (7 ≤ Model.quality_score m)%Z) (local_models models) ≠ [] →
  ∃ m, route_task c task models = Return m ∧ m ∈ models
    ∧ ((Model.type m = FREE_API ∧ Model.is_free m = true)
       ∨ (Model.type m = LOCAL ∧ (7 ≤ Model.quality_score m)%Z)).
Proof.
  intros Hb Hc Hne. unfold route_task. rewrite Hc.
  rewrite bool_decide_eq_false_2 by done.
  apply nonempty_true in Hne as Hne'. rewrite Hne'.
  destruct (select_best_model_returns _ task Hne) as [m Hm]. exists m.
  split; [done|]. apply select_best_model_elem in Hm.
  unfold free_api_models, local_models in Hm.
  rewrite elem_of_app, !list_elem_of_filter in Hm. tauto.
Qed.

Lemma medium_prefers_free_or_good_local_witness :
  ∃ m, route_task (period 0%Qc) (task_of MEDIUM) [gpt_x; llama_7b] = Return m
    ∧ m ∈ [gpt_x; llama_7b]
    ∧ ((Model.type m = FREE_API ∧ Model.is_free m = true)
       ∨ (Model.type m = LOCAL ∧ (7 ≤ Model.quality_score m)%Z)).
Proof.
  apply medium_prefers_free_or_good_local.
  - vm_compute. intros H. by apply H.
  - reflexivity.
  - vm_compute. discriminate.
Defined.

(** X5. With budget left, a simple task goes to a local model whenever one
    is installed, and so does a complex or critical task when no premium
    model is registered: a free model is not considered then, whatever its
    scores. *)
Theorem local_preferred_to_free (c : CostTracking) (task : Task) (models : list Model) :
  ¬ (CostTracking.remaining_budget c ≤ 0)%Qc →
  local_models models ≠ [] →
  Task.complexity task = SIMPLE
  ∨ (Task.complexity task ≠ MEDIUM ∧ premium_models models = []) →
  ∃ m, route_task c task models = Return m ∧ m ∈ models ∧ Model.type m = LOCAL.
Proof.
  intros Hb HL Hc. unfold route_task.
  rewrite bool_decide_eq_false_2 by done.
  apply nonempty_true in HL as HL'. rewrite HL'.
  destruct (select_best_model_returns _ task HL) as [m Hm].
  assert (Hloc : m ∈ models ∧ Model.type m = LOCAL).
  { apply select_best_model_elem in Hm. unfold local_models in Hm.
    apply list_elem_of_filter in Hm. tauto. }
  destruct Hc as [->|[Hnm ->]]; [by exists m|].
  destruct (Task.complexity task); try done; simpl; rewrite ?andb_false_r; by exists m.
Qed.

Lemma local_preferred_to_free_witness :
  ∃ m, route_task (period 0%Qc) (task_of CRITICAL) [groq; llama_7b] = Return m
    ∧ m ∈ [groq; llama_7b] ∧ Model.type m = LOCAL.
Proof.
  apply local_preferred_to_free.
  - vm_compute. intros H. by apply H.
  - vm_compute. discriminate.
  - right. split; [discriminate | reflexivity].
Defined.

(** ** Fallback *)

(** X6. The fallback model is a model of the registry other than the one
    that failed, and it is of the other kind whenever the registry holds
    one: the first cloud model after a local failure, the first local model
    after a cloud failure. *)
Theorem fallback_is_another_model (models : list Model) (failed fb : Model) :
  _get_fallback_model models failed = Some fb →
  fb ∈ models ∧ fb ≠ failed
  ∧ (Model.type failed = LOCAL → cloud_models models ≠ [] →
     Model.type fb ≠ LOCAL ∧ ∃ rest, cloud_models models = fb :: rest)
  ∧ (Model.type failed ≠ LOCAL → local_models models ≠ [] →
     Model.type fb = LOCAL ∧ ∃ rest, local_models models = fb :: rest).
Proof.
  intros H. split; [by eapply get_fallback_elem|].
  unfold _get_fallback_model in H.
  assert (Hfind : ∀ x, List.find (fun m => bool_decide (m ≠ failed)) models = Some x
                       → x ≠ failed).
  { intros x [_ Hx]%find_some. by apply bool_decide_eq_true in Hx. }
  assert (Hcloud : ∀ x xs, cloud_models models = x :: xs → Model.type x ≠ LOCAL).
  { intros x xs Hc. assert (Hx : x ∈ cloud_models models) by (rewrite Hc; left).
    unfold cloud_models in Hx. apply list_elem_of_filter in Hx as [[?|?] _]; congruence. }
  assert (Hlocal : ∀ x xs, local_models models = x :: xs → Model.type x = LOCAL).
  { intros x xs Hc. assert (Hx : x ∈ local_models models) by (rewrite Hc; left).
    unfold local_models in Hx. by apply list_elem_of_filter in Hx as [? _]. }
  destruct (Model.type failed) eqn:Ht.
  - destruct (cloud_models models) as [|x xs] eqn:Hc.
    + split; [by apply Hfind|]. split; [done|]. intros Hn; done.
    + simplify_eq. pose proof (Hcloud _ _ eq_refl) as Hx.
      split; [intros ->; congruence|]. split; [eauto|]. intros Hn; done.
  - destruct (local_models models) as [|x xs] eqn:Hc.
    + split; [by apply Hfind|]. split; [done|]. done.
    + simplify_eq. pose proof (Hlocal _ _ eq_refl) as Hx.
      split; [intros ->; congruence|]. split; [done|]. eauto.
  - destruct (local_models models) as [|x xs] eqn:Hc.
    + split; [by apply Hfind|]. split; [done|]. done.
    + simplify_eq. pose proof (Hlocal _ _ eq_refl) as Hx.
      split; [intros ->; congruence|]. split; [done|]. eauto.
Qed.

Lemma fallback_is_another_model_witness :
  llama_7b ∈ [gpt_x; groq; llama_7b] ∧ llama_7b ≠ gpt_x
  ∧ (Model.type gpt_x = LOCAL → cloud_models [gpt_x; groq; llama_7b] ≠ [] →
     Model.type llama_7b ≠ LOCAL ∧ ∃ rest, cloud_models [gpt_x; groq; llama_7b] = llama_7b :: rest)
  ∧ (Model.type gpt_x ≠ LOCAL → local_models [gpt_x; groq; llama_7b] ≠ [] →
     Model.type llama_7b = LOCAL ∧ ∃ rest, local_models [gpt_x; groq; llama_7b] = llama_7b :: rest).
Proof. apply fallback_is_another_model. reflexivity. Defined.

(** X7. [_get_fallback_model] finds no fallback exactly when the registry
    holds no model of the other kind and no model different from the failed
    one. *)
Theorem no_fallback_iff (models : list Model) (failed : Model) :
  _get_fallback_model models failed = None
  ↔ (if bool_decide (Model.type failed = LOCAL) then cloud_models models = []
     else local_models models = [])
    ∧ Forall (fun m => m = failed) models.
Proof.
  unfold _get_fallback_model.
  assert (Hfind : List.find (fun m => bool_decide (m ≠ failed)) models = None
                  ↔ Forall (fun m => m = failed) models).
  { rewrite Forall_forall. split.
    - intros Hn m Hm. apply list_elem_of_In in Hm.
      pose proof (find_none _ _ Hn m Hm) as Hb. simpl in Hb.
      apply bool_decide_eq_false in Hb. by apply dec_stable.
    - intros Hall. destruct (List.find _ models) as [x|] eqn:Hx; [|done].
      apply find_some in Hx as [Hin Hb]. apply bool_decide_eq_true in Hb.
      destruct Hb. apply Hall. by apply list_elem_of_In. }
  destruct (Model.type failed) eqn:Ht.
  - rewrite bool_decide_eq_true_2 by done.
    destruct (cloud_models models) as [|x xs];
      [rewrite Hfind; tauto | split; [done | intros [? _]; done]].
  - rewrite bool_decide_eq_false_2 by done.
    destruct (local_models models) as [|x xs];
      [rewrite Hfind; tauto | split; [done | intros [? _]; done]].
  - rewrite bool_decide_eq_false_2 by done.
    destruct (local_models models) as [|x xs];
      [rewrite Hfind; tauto | split; [done | intros [? _]; done]].
Qed.

(** ** The ledger, continued *)

(** X8. A [track_usage] on a period whose dictionaries have the same keys
    returns, adds the tokens and the cost to the entries of the model
    (created at 0 if absent), leaves the entries of every other model
    alone, keeps the keys of the two dictionaries equal and writes the new
    period to the ledger file. *)
Theorem track_usage_accounts (model : Model) (tokens : Z) (cost : Qc) (s : state) :
  keys_agree (cost_tracking (router s)) →
  ∃ s', track_usage model tokens cost s = (Return tt, s')
    ∧ let c := cost_tracking (router s) in
      let c' := cost_tracking (router s') in
      CostTracking.tokens_by_model c' !! Model.name model
      = Some (default 0 (CostTracking.tokens_by_model c !! Model.name model) + tokens)%Z
      ∧ CostTracking.cost_by_model c' !! Model.name model
        = Some (default 0 (CostTracking.cost_by_model c !! Model.name model) + cost)%Qc
      ∧ (∀ k, k ≠ Model.name model →
           CostTracking.tokens_by_model c' !! k = CostTracking.tokens_by_model c !! k
           ∧ CostTracking.cost_by_model c' !! k = CostTracking.cost_by_model c !! k)
      ∧ keys_agree c'
      ∧ disk s' = Some (dump_cost_tracking c').
Proof.
  intros Hk. eexists. split; [by apply track_usage_run|]. simpl.
  rewrite !lookup_insert_eq. split; [done|]. split; [done|]. split.
  - intros k Hne. by rewrite !lookup_insert_ne.
  - split; [by apply usage_added_keys_agree | done].
Qed.

Lemma track_usage_accounts_witness :
  ∃ s', track_usage gpt_x 2000 (Q2Qc 0.02) (state_with busy_period "2024-01") = (Return tt, s')
    ∧ let c := busy_period in
      let c' := cost_tracking (router s') in
      CostTracking.tokens_by_model c' !! Model.name gpt_x
      = Some (default 0 (CostTracking.tokens_by_model c !! Model.name gpt_x) + 2000)%Z
      ∧ CostTracking.cost_by_model c' !! Model.name gpt_x
        = Some (default 0 (CostTracking.cost_by_model c !! Model.name gpt_x) + Q2Qc 0.02)%Qc
      ∧ (∀ k, k ≠ Model.name gpt_x →
           CostTracking.tokens_by_model c' !! k = CostTracking.tokens_by_model c !! k
           ∧ CostTracking.cost_by_model c' !! k = CostTracking.cost_by_model c !! k)
      ∧ keys_agree c'
      ∧ disk s' = Some (dump_cost_tracking c').
Proof.
  apply (track_usage_accounts gpt_x 2000 (Q2Qc 0.02) (state_with busy_period "2024-01")).
  intros k. simpl.
  destruct (decide ("gpt-x" = k)) as [<-|]; [by rewrite !lookup_insert_eq|].
  rewrite !(lookup_insert_ne _ "gpt-x") by done.
  destruct (decide ("llama-7b" = k)) as [<-|]; [by rewrite !lookup_insert_eq|].
  by rewrite !lookup_insert_ne, !lookup_empty.
Defined.

(** X9. When the model has an entry in [cost_by_model] and none in
    [tokens_by_model], [track_usage] raises [KeyError] half-way: the total
    and the cost entry are already increased, the token dictionary is
    unchanged and the ledger file is not rewritten. *)
Theorem track_usage_key_error (model : Model) (tokens : Z) (cost v : Qc) (s : state) :
  CostTracking.cost_by_model (cost_tracking (router s)) !! Model.name model = Some v →
  CostTracking.tokens_by_model (cost_tracking (router s)) !! Model.name model = None →
  ∃ s', track_usage model tokens cost s = (Raise (KeyError (Model.name model)), s')
    ∧ let c := cost_tracking (router s) in
      let c' := cost_tracking (router s') in
      CostTracking.total_cost c' = (CostTracking.total_cost c + cost)%Qc
      ∧ CostTracking.cost_by_model c' !! Model.name model = Some (v + cost)%Qc
      ∧ CostTracking.tokens_by_model c' = CostTracking.tokens_by_model c
      ∧ disk s' = disk s.
Proof.
  intros Hc Ht. destruct s as [[lim cm [mo tot costs toks bl]] ms d w cl lg an].
  simpl in *.
  unfold track_usage, mbind, M_bind, bind, update_cost_tracking, modify,
    gets, save_cost_tracking, lift, dict_add, set_cost_tracking, set_router, set_disk,
    set_total_cost, set_cost_by_model, set_tokens_by_model, mret, M_ret, ret. simpl.
  rewrite Hc. simpl. rewrite Hc, Ht. simpl. eexists. split; [done|]. simpl.
  by rewrite lookup_insert_eq.
Qed.

Lemma track_usage_key_error_witness :
  ∃ s', track_usage gpt_x 500 (Q2Qc 0.5) (state_with lopsided_period "2024-01")
        = (Raise (KeyError (Model.name gpt_x)), s')
    ∧ let c := lopsided_period in
      let c' := cost_tracking (router s') in
      CostTracking.total_cost c' = (CostTracking.total_cost c + Q2Qc 0.5)%Qc
      ∧ CostTracking.cost_by_model c' !! Model.name gpt_x = Some (Q2Qc 1 + Q2Qc 0.5)%Qc
      ∧ CostTracking.tokens_by_model c' = CostTracking.tokens_by_model c
      ∧ disk s' = None.
Proof.
  apply (track_usage_key_error gpt_x 500 (Q2Qc 0.5) (Q2Qc 1)
           (state_with lopsided_period "2024-01")); reflexivity.
Defined.

Lemma track_usage_saves (model : Model) (tokens : Z) (cost : Qc) (s s1 : state) :
  track_usage model tokens cost s = (Return tt, s1) →
  disk s1 = Some (dump_cost_tracking (cost_tracking (router s1)))
  ∧ wall_month s1 = wall_month s.
Proof.
  intros Hrun.
  assert (H : match track_usage model tokens cost s with
              | (Return _, s') =>
                disk s' = Some (dump_cost_tracking (cost_tracking (router s')))
                ∧ wall_month s' = wall_month s
              | (Raise _, _) => True
              end); [|by rewrite Hrun in H].
  clear Hrun. destruct s as [[lim cm [mo tot costs toks bl]] ms d w cl lg an].
  unfold track_usage, save_cost_tracking, update_cost_tracking.
  unfold mbind, M_bind, bind, modify, gets, lift, dict_add, set_cost_tracking,
    set_router, set_disk, set_total_cost, set_cost_by_model, set_tokens_by_model,
    mret, M_ret, ret. simpl.
  repeat (case_match; simpl in *; simplify_eq); done.
Qed.

(** X10. The ledger survives a restart: after a [track_usage] that returned,
    a router constructed in the month of the period, with whatever monthly
    limit, holds exactly the period that was in memory. *)
Theorem track_usage_then_restart (model : Model) (tokens : Z) (cost limit : Qc)
    (s s1 : state) :
  track_usage model tokens cost s = (Return tt, s1) →
  CostTracking.month (cost_tracking (router s1)) = wall_month s1 →
  ∃ s2, CostOptimizedRouter__init__ limit s1 = (Return tt, s2)
    ∧ cost_tracking (router s2) = cost_tracking (router s1).
Proof.
  intros Hrun Hm. apply track_usage_saves in Hrun as [Hd _].
  unfold CostOptimizedRouter__init__, mbind, M_bind, bind at 1, gets at 1.
  unfold bind. rewrite (load_saved (cost_tracking (router s1))) by done.
  rewrite bool_decide_eq_true_2 by done. eexists. split; [done|]. done.
Qed.

Lemma track_usage_then_restart_witness :
  ∃ s2, CostOptimizedRouter__init__ (Q2Qc 50)
          (track_usage gpt_x 500 (Q2Qc 0.5) (state_with unmatched_period "2024-01")).2
        = (Return tt, s2)
    ∧ cost_tracking (router s2)
      = cost_tracking
          (router (track_usage gpt_x 500 (Q2Qc 0.5)
                     (state_with unmatched_period "2024-01")).2).
Proof.
  apply (track_usage_then_restart gpt_x 500 (Q2Qc 0.5) (Q2Qc 50)
           (state_with unmatched_period "2024-01")).
  - vm_compute. reflexivity.
  - vm_compute. reflexivity.
Defined.

Lemma init_run (limit : Qc) (s : state) :
  CostOptimizedRouter__init__ limit s
  = match _load_cost_tracking limit (wall_month s) s with
    | (Return c, s') => (Return tt, set_router (mkRouter limit (wall_month s) c) s')
    | (Raise e, s') => (Raise e, s')
    end.
Proof. done. Qed.

(** X11. Constructing the router over a malformed ledger file raises and
    builds no router: [TypeError] when the file is not a JSON object,
    [KeyError] when the object has no "month", and [TypeError] when the
    month is the current one and the object has a key that is not a field
    of [CostTracking]. *)
Theorem init_rejects_malformed_file (limit : Qc) (s : state) :
  (∀ j, disk s = Some j → (∀ data, j ≠ JObj data) →
     ∃ msg, CostOptimizedRouter__init__ limit s = (Raise (TypeError msg), s))
  ∧ (∀ data, disk s = Some (JObj data) → json_get "month" data = None →
       CostOptimizedRouter__init__ limit s = (Raise (KeyError "month"), s))
  ∧ (∀ data key v, disk s = Some (JObj data) →
       json_get "month" data = Some (JStr (wall_month s)) →
       (key, v) ∈ data → key ∉ CostTracking_fields →
       CostOptimizedRouter__init__ limit s
       = (Raise (TypeError "unexpected keyword argument"), s)).
Proof.
  split_and!.
  - intros j Hd Hj. rewrite init_run.
    unfold _load_cost_tracking, mbind, M_bind, bind, gets. rewrite Hd.
    destruct j; try (by eexists); by destruct (Hj fields).
  - intros data Hd Hm. rewrite init_run.
    unfold _load_cost_tracking, mbind, M_bind, bind, gets. by rewrite Hd, Hm.
  - intros data key v Hd Hm Hin Hkey. rewrite init_run.
    unfold _load_cost_tracking, mbind, M_bind, bind, gets. rewrite Hd, Hm.
    unfold json_str_eqb. rewrite bool_decide_eq_true_2 by done.
    unfold lift, CostTracking_of_kwargs. rewrite bool_decide_eq_false_2; [done|].
    intros Hall. rewrite Forall_forall in Hall. by apply (Hall (key, v)) in Hin.
Qed.

Lemma init_rejects_malformed_file_witness :
  CostOptimizedRouter__init__ (Q2Qc 10)
    (set_disk (Some (JObj (foreign_file "2024-01"))) fresh_state)
  = (Raise (TypeError "unexpected keyword argument"),
     set_disk (Some (JObj (foreign_file "2024-01"))) fresh_state).
Proof.
  destruct (init_rejects_malformed_file (Q2Qc 10)
              (set_disk (Some (JObj (foreign_file "2024-01"))) fresh_state))
    as (_ & _ & H).
  apply (H (foreign_file "2024-01") "notes" JNull); [reflexivity | reflexivity | |].
  - apply list_elem_of_In. simpl. auto.
  - intros Hin. apply list_elem_of_In in Hin. simpl in Hin.
    repeat (destruct Hin as [Hin|Hin]; [discriminate Hin|]). exact Hin.
Defined.

(** X12. The month is compared before anything else is read: over a file
    whose "month" is not the current month the router is constructed with a
    fresh zeroed period, without raising, whatever else the file holds;
    the file is left as it is. *)
Theorem init_ignores_file_of_other_month (limit : Qc) (s : state)
    (data : list (string * json)) (m : json) :
  disk s = Some (JObj data) →
  json_get "month" data = Some m →
  m ≠ JStr (wall_month s) →
  CostOptimizedRouter__init__ limit s
  = (Return tt,
     set_router (mkRouter limit (wall_month s) (fresh_cost_tracking (wall_month s) limit)) s).
Proof.
  intros Hd Hm Hne. rewrite init_run.
  unfold _load_cost_tracking, mbind, M_bind, bind, gets. rewrite Hd, Hm.
  assert (json_str_eqb m (wall_month s) = false) as ->; [|done].
  unfold json_str_eqb. destruct m; try done.
  apply bool_decide_eq_false. congruence.
Qed.

Lemma init_ignores_file_of_other_month_witness :
  CostOptimizedRouter__init__ (Q2Qc 10)
    (set_disk (Some (JObj (foreign_file "2023-12"))) fresh_state)
  = (Return tt,
     set_router (mkRouter (Q2Qc 10) "2024-01" (fresh_cost_tracking "2024-01" (Q2Qc 10)))
       (set_disk (Some (JObj (foreign_file "2023-12"))) fresh_state)).
Proof.
  apply (init_ignores_file_of_other_month (Q2Qc 10)
           (set_disk (Some (JObj (foreign_file "2023-12"))) fresh_state)
           (foreign_file "2023-12") (JStr "2023-12")); [reflexivity | reflexivity |].
  simpl. intros H. discriminate H.
Defined.

(** X13. The [monthly_limit] given to the constructor is used only for a
    fresh period: over a file saved in the current month the router keeps
    the argument in [monthly_limit], while the period, its [budget_limit]
    and therefore the remaining budget are those of the file. *)
Theorem saved_limit_overrides_argument (limit : Qc) (s : state) (saved : CostTracking) :
  disk s = Some (dump_cost_tracking saved) →
  CostTracking.month saved = wall_month s →
  ∃ s', CostOptimizedRouter__init__ limit s = (Return tt, s')
    ∧ monthly_limit (router s') = limit
    ∧ CostTracking.budget_limit (cost_tracking (router s')) = CostTracking.budget_limit saved
    ∧ CostTracking.remaining_budget (cost_tracking (router s'))
      = CostTracking.remaining_budget saved.
Proof.
  intros Hd Hm. rewrite init_run, (load_saved saved) by done.
  rewrite bool_decide_eq_true_2 by done. by eexists.
Qed.

Lemma saved_limit_overrides_argument_witness :
  ∃ s', CostOptimizedRouter__init__ (Q2Qc 100)
          (set_disk (Some (dump_cost_tracking busy_period)) fresh_state) = (Return tt, s')
    ∧ monthly_limit (router s') = Q2Qc 100
    ∧ CostTracking.budget_limit (cost_tracking (router s')) = Q2Qc 10
    ∧ CostTracking.remaining_budget (cost_tracking (router s'))
      = CostTracking.remaining_budget busy_period.
Proof.
  apply (saved_limit_overrides_argument (Q2Qc 100)
           (set_disk (Some (dump_cost_tracking busy_period)) fresh_state) busy_period);
    reflexivity.
Defined.

Lemma Qc_sub_le_mono (a b c : Qc) : (0 ≤ c)%Qc → (a - (b + c) ≤ a - b)%Qc.
Proof.
  intros Hc. apply Qcle_minus_iff.
  replace (a - b + - (a - (b + c)))%Qc with c by ring. done.
Qed.

Lemma py_max0_mono (x y : Qc) : (x ≤ y)%Qc → (py_max0 x ≤ py_max0 y)%Qc.
Proof.
  intros Hxy. unfold py_max0. repeat case_bool_decide.
  - done.
  - exfalso. apply H0. by eapply Qclt_le_trans.
  - by apply Qclt_le_weak.
  - apply Qcle_refl.
Qed.

(** X14. The remaining budget is 0 exactly when the total has reached the
    limit, and recording a non-negative cost never increases it, whether
    [track_usage] returns or raises. *)
Theorem remaining_budget_never_grows (model : Model) (tokens : Z) (cost : Qc)
    (s : state) :
  (0 ≤ cost)%Qc →
  let c := cost_tracking (router s) in
  let c' := cost_tracking (router (track_usage model tokens cost s).2) in
  (CostTracking.remaining_budget c' ≤ CostTracking.remaining_budget c)%Qc
  ∧ (CostTracking.remaining_budget c = 0%Qc
     ↔ (CostTracking.budget_limit c ≤ CostTracking.total_cost c)%Qc).
Proof.
  intros Hcost c c'. split.
  - destruct (track_usage_total model tokens cost s) as (_ & Htot & Hlim).
    unfold CostTracking.remaining_budget. fold c c' in Htot, Hlim.
    rewrite Htot, Hlim. by apply py_max0_mono, Qc_sub_le_mono.
  - unfold CostTracking.remaining_budget, py_max0.
    set (d := (CostTracking.budget_limit c - CostTracking.total_cost c)%Qc).
    case_bool_decide as Hpos.
    + split.
      * intros H0. rewrite H0 in Hpos. by apply (Qcle_not_lt 0 0 (Qcle_refl 0)) in Hpos.
      * intros Hle. exfalso. apply Qcle_minus_iff in Hle.
        pose proof (Qcplus_pos_nonneg _ _ Hpos Hle) as Hsum.
        replace (d + (CostTracking.total_cost c + - CostTracking.budget_limit c))%Qc
          with 0%Qc in Hsum by (unfold d; ring).
        by apply (Qcle_not_lt 0 0 (Qcle_refl 0)) in Hsum.
    + split; [|done]. intros _. apply Qcnot_lt_le in Hpos.
      apply Qcle_minus_iff.
      replace (CostTracking.total_cost c + - CostTracking.budget_limit c)%Qc
        with (- d)%Qc by (unfold d; ring).
      replace 0%Qc with (- 0)%Qc by ring. by apply Qcopp_le_compat.
Qed.

Lemma remaining_budget_never_grows_witness :
  let c := busy_period in
  let c' := cost_tracking
              (router (track_usage gpt_x 2000 (Q2Qc 0.02) (state_with busy_period "2024-01")).2) in
  (CostTracking.remaining_budget c' ≤ CostTracking.remaining_budget c)%Qc
  ∧ (CostTracking.remaining_budget c = 0%Qc
     ↔ (CostTracking.budget_limit c ≤ CostTracking.total_cost c)%Qc).
Proof.
  apply (remaining_budget_never_grows gpt_x 2000 (Q2Qc 0.02)
           (state_with busy_period "2024-01")).
  vm_compute. discriminate.
Defined.

(** ** The dispatcher, continued *)

Section DispatchProperties.

Variable ollama_post : Model → string → Z → ollama_reply.
Variable environ : string → option string.
Variable analysis_error : interaction → option exn.
Variable _build_prompt : Task → string.
Variable _count_tokens : string → Z.
Variable _extract_actions_and_reasoning : string → list Action * string.

Local Abbreviation invoke :=
  (_process_with_model ollama_post environ _build_prompt _count_tokens
     _extract_actions_and_reasoning).
Local Abbreviation dispatch :=
  (process_task ollama_post environ analysis_error _build_prompt _count_tokens
     _extract_actions_and_reasoning).
Local Abbreviation fallback :=
  (try_fallback ollama_post environ _build_prompt _count_tokens
     _extract_actions_and_reasoning).
Local Abbreviation primary :=
  (try_primary ollama_post environ analysis_error _build_prompt _count_tokens
     _extract_actions_and_reasoning).
Local Abbreviation fallback_outcome :=
  (fallback_outcome ollama_post environ _build_prompt _count_tokens
     _extract_actions_and_reasoning).

Lemma invoke_local (task : Task) (model : Model) (s : state) :
  Model.type model = LOCAL →
  match ollama_post model (_build_prompt task) (max_tokens_of task) with
  | Reply200 content =>
    invoke task model s
    = (Return (AIResponse.mk content (_extract_actions_and_reasoning content).1
                 (_extract_actions_and_reasoning content).2 (Model.name model)
                 (Q2Qc 0.9) false (_count_tokens (_build_prompt task)) 0%Qc 0%Qc), s)
  | _ => ∃ e s', invoke task model s = (Raise e, s')
  end.
Proof.
  intros Ht. unfold _process_with_model, _process_with_ollama. rewrite Ht.
  fold (max_tokens_of task).
  destruct (ollama_post _ _ _) as [content| | | |]; try (by eexists _, _).
  by destruct (_extract_actions_and_reasoning content).
Qed.

Lemma invoke_returns_prompt_tokens (task : Task) (model : Model) (s s' : state)
    (r : AIResponse) :
  invoke task model s = (Return r, s') →
  AIResponse.confidence r = Q2Qc 0.9
  ∧ AIResponse.tokens_used r = _count_tokens (_build_prompt task).
Proof.
  intros H. pose proof (invoke_returns _ _ _ _ _ _ _ _ _ _ H) as (Ht & _).
  pose proof (invoke_local task model s Ht) as Hl.
  destruct (ollama_post _ _ _);
    try (destruct Hl as (ex & sx & Hl); rewrite Hl in H; discriminate H).
  rewrite Hl in H. by injection H as <- _.
Qed.

Lemma dispatch_unfold (task : Task) (s : state) (selected : Model) :
  route_task (cost_tracking (router s)) task (available_models s) = Return selected →
  ∃ t0 s1, static s1 = static s ∧ log s1 = log s ∧ analysed s1 = analysed s
    ∧ dispatch task s
      = try_except (primary task t0 selected) (fallback task t0 selected)
          (add_log (LogRouting (Model.name selected) (Task.complexity task)) s1).
Proof.
  intros Hr. unfold process_task, mbind, M_bind, bind.
  unfold time_time at 1.
  destruct (clock s) as [|t rest] eqn:Hc.
  - exists 0%Qc, s. split_and!; try done.
    unfold gets, lift, id. by rewrite Hr.
  - exists t, (set_clock rest s). split_and!; try done.
    unfold gets, lift, id. simpl. by rewrite Hr.
Qed.

(** X15. Every response [process_task] returns carries cost 0; a successful
    one has confidence 0.9 and counts the tokens of the prompt alone, not of
    the answer; an unsuccessful one is the error response. *)
Theorem dispatch_response_shape (task : Task) (s s' : state) (r : AIResponse) :
  dispatch task s = (Return r, s') →
  AIResponse.cost r = 0%Qc
  ∧ (AIResponse.success r = true →
     AIResponse.confidence r = Q2Qc 0.9
     ∧ AIResponse.tokens_used r = _count_tokens (_build_prompt task))
  ∧ (AIResponse.success r = false → r = error_response (AIResponse.processing_time r)).
Proof.
  intros Hrun.
  destruct (route_task (cost_tracking (router s)) task (available_models s))
    as [selected|e] eqn:Hr.
  2: { destruct (dispatch_raises ollama_post environ analysis_error _build_prompt _count_tokens _extract_actions_and_reasoning
         task s e Hr) as [s'' Hrun']. congruence. }
  destruct (dispatch_returns ollama_post environ analysis_error _build_prompt _count_tokens _extract_actions_and_reasoning
              task s selected Hr)
    as (r' & s'' & Hrun' & Hcases & _).
  assert (r' = r) as -> by congruence.
  destruct Hcases as [(r0 & s0 & s1 & t & Hinv & ->)|[_ [[t ->]|Hfb]]].
  - pose proof (invoke_returns _ _ _ _ _ _ _ _ _ _ Hinv) as (_ & _ & Hok & Hcost & _).
    pose proof (invoke_returns_prompt_tokens _ _ _ _ _ Hinv) as [Hconf Htok].
    simpl. split; [done|]. split; [done|].
    unfold AIResponse.success in *. simpl. congruence.
  - split; [done|]. split; [done|]. done.
  - destruct Hfb as (fb & r0 & s0 & s1 & t & _ & Hinv & ->).
    pose proof (invoke_returns _ _ _ _ _ _ _ _ _ _ Hinv) as (_ & _ & Hok & Hcost & _).
    pose proof (invoke_returns_prompt_tokens _ _ _ _ _ Hinv) as [Hconf Htok].
    simpl. split; [done|]. split; [done|].
    unfold AIResponse.success in *. simpl. congruence.
Qed.

(** X16. An exception of the self-analysis engine is caught like a model
    failure: when the primary model has answered and
    [analyze_interaction] raises, the answer is dropped and the dispatch
    goes through the fallback, so the response is marked [fallback_used]. *)
Theorem analysis_failure_forces_fallback (task : Task) (s : state) (selected : Model) :
  route_task (cost_tracking (router s)) task (available_models s) = Return selected →
  (∀ i, is_Some (analysis_error i)) →
  ∃ r s', dispatch task s = (Return r, s')
    ∧ AIResponse.fallback_used r = true
    ∧ fallback_outcome task (available_models s) selected r.
Proof.
  intros Hr Han.
  destruct (dispatch_unfold task s selected Hr) as (t0 & s1 & Hst & _ & _ & ->).
  unfold try_except, try_primary, mbind, M_bind, bind.
  set (s2 := add_log _ s1).
  assert (Hav : ∀ s3, static s3 = static s2 → available_models s3 = available_models s).
  { intros s3 H3. apply (f_equal (fun x => x.1.1.2)) in H3, Hst. simpl in *. congruence. }
  destruct (invoke task selected s2) as [[r0|e] s3] eqn:Hinv.
  - pose proof (preserves_invoke ollama_post environ _build_prompt _count_tokens _extract_actions_and_reasoning
                    task selected s2) as Hst3.
    rewrite Hinv in Hst3. simpl in Hst3.
    destruct (time_time_run s3) as (t & s4 & Ht & _).
    pose proof (preserves_time_time s3) as Hst4. rewrite Ht in *. simpl in Hst4.
    unfold analyze_interaction, mbind, M_bind, bind, modify.
    match goal with |- context [analysis_error ?i] =>
      destruct (Han i) as [e He]; rewrite He; set (s5 := add_analysed i s4) end.
    unfold raise.
    destruct (fallback_run ollama_post environ _build_prompt _count_tokens _extract_actions_and_reasoning
                task t0 selected e s5)
      as (r & s' & Hrun & Hfu & Hout & _).
    rewrite (Hav s5) in Hout by (transitivity (static s4); [done|congruence]).
    by exists r, s'.
  - pose proof (preserves_invoke ollama_post environ _build_prompt _count_tokens _extract_actions_and_reasoning
                    task selected s2) as Hst3.
    rewrite Hinv in Hst3. simpl in Hst3.
    destruct (fallback_run ollama_post environ _build_prompt _count_tokens _extract_actions_and_reasoning
                task t0 selected e s3)
      as (r & s' & Hrun & Hfu & Hout & _).
    rewrite (Hav s3) in Hout by done.
    by exists r, s'.
Qed.

(** X17. When the routed local model answers and the self-analysis does not
    fail, [process_task] returns that answer under the name of the routed
    model, not marked as fallback; it logs the routing and nothing else,
    hands exactly one interaction, marked successful, to the self-analysis,
    and leaves the ledger, the registry and the ledger file alone. *)
Theorem primary_answer_is_returned (task : Task) (s : state) (selected : Model)
    (content : string) :
  route_task (cost_tracking (router s)) task (available_models s) = Return selected →
  Model.type selected = LOCAL →
  ollama_post selected (_build_prompt task) (max_tokens_of task) = Reply200 content →
  (∀ i, analysis_error i = None) →
  ∃ r s', dispatch task s = (Return r, s')
    ∧ AIResponse.content r = content
    ∧ AIResponse.model_used r = Model.name selected
    ∧ AIResponse.fallback_used r = false
    ∧ AIResponse.success r = true
    ∧ log s' = log s ++ [LogRouting (Model.name selected) (Task.complexity task)]
    ∧ analysed s'
      = analysed s ++ [mkInteraction (Task.content task) content (Model.name selected)
                         (AIResponse.processing_time r) true]
    ∧ static s' = static s.
Proof.
  intros Hr Ht Hpost Han.
  destruct (dispatch_unfold task s selected Hr) as (t0 & s1 & Hst & Hlog & Hana & ->).
  unfold try_except, try_primary, mbind, M_bind, bind.
  set (s2 := add_log _ s1).
  pose proof (invoke_local task selected s2 Ht) as Hinv. rewrite Hpost in Hinv.
  rewrite Hinv.
  unfold time_time, analyze_interaction, mbind, M_bind, bind, modify.
  destruct (clock s2) as [|t rest] eqn:Hc; rewrite Han; unfold mret, M_ret, ret;
    eexists _, _; (split; [reflexivity|]); simpl; rewrite Hlog, Hana;
    split_and!; try done.
Qed.

Lemma local_failure_error_response (task : Task) (s : state) (selected : Model) :
  route_task (cost_tracking (router s)) task (available_models s) = Return selected →
  Model.type selected = LOCAL →
  (∀ content,
     ollama_post selected (_build_prompt task) (max_tokens_of task) ≠ Reply200 content) →
  cloud_models (available_models s) ≠ [] →
  ∃ t s', dispatch task s = (Return (error_response t), s').
Proof.
  intros Hr Ht Hpost Hcloud.
  destruct (dispatch_unfold task s selected Hr) as (t0 & s1 & Hst & _ & _ & ->).
  unfold try_except, try_primary, mbind, M_bind, bind.
  set (s2 := add_log _ s1).
  pose proof (invoke_local task selected s2 Ht) as Hinv.
  destruct (ollama_post _ _ _) as [content| | | |] eqn:Hp; [by destruct (Hpost content)|..];
    destruct Hinv as (ex & s3 & Hinv); rewrite Hinv.
  all: pose proof (preserves_invoke ollama_post environ _build_prompt _count_tokens
                     _extract_actions_and_reasoning task selected s2) as Hst3;
    rewrite Hinv in Hst3; simpl in Hst3;
    assert (Hav : available_models s3 = available_models s)
      by (apply (f_equal (fun x => x.1.1.2)) in Hst3, Hst; simpl in *; congruence).
  all: destruct (fallback_run ollama_post environ _build_prompt _count_tokens
                   _extract_actions_and_reasoning task t0 selected ex s3)
         as (r & s' & Hrun & _ & _ & Hall);
    rewrite Hrun; destruct Hall as [t ->]; [|by eexists _, _].
  all: intros fb s0 Hfb; rewrite Hav in Hfb;
    unfold _get_fallback_model in Hfb; rewrite Ht in Hfb;
    destruct (cloud_models (available_models s)) as [|x xs] eqn:Hc; [done|];
    simplify_eq;
    assert (Hx : fb ∈ cloud_models (available_models s)) by (rewrite Hc; left);
    unfold cloud_models in Hx; apply list_elem_of_filter in Hx as [[Hty|Hty] _];
    [ rewrite (invoke_free ollama_post environ _build_prompt _count_tokens
                 _extract_actions_and_reasoning task fb s0 Hty); exact I
    | destruct (invoke_premium ollama_post environ _build_prompt _count_tokens
                  _extract_actions_and_reasoning task fb s0 Hty) as [-> | ->]; exact I ].
Qed.

(** X18. After a local model has failed the fallback is the first cloud
    model of the registry, and no cloud adapter is implemented: when the
    routed local model does not answer and the registry holds any cloud
    model, [process_task] returns the error response, other local models
    notwithstanding. *)
Theorem local_failure_with_cloud_registered (task : Task) (s : state) (selected : Model) :
  route_task (cost_tracking (router s)) task (available_models s) = Return selected →
  Model.type selected = LOCAL →
  (∀ content,
     ollama_post selected (_build_prompt task) (max_tokens_of task) ≠ Reply200 content) →
  cloud_models (available_models s) ≠ [] →
  ∃ t s', dispatch task s = (Return (error_response t), s').
Proof. apply local_failure_error_response. Qed.

(** X27. The registry of the core always holds the cloud model
    "groq-mixtral", so with that registry a routed local model that does
    not answer is never replaced by another local model: the dispatch ends
    with the error response. *)
Theorem core_registry_local_failure (discovered : result (list Model)) (task : Task)
    (s : state) (selected : Model) :
  available_models s = NOVACore._get_available_models discovered environ →
  route_task (cost_tracking (router s)) task (available_models s) = Return selected →
  Model.type selected = LOCAL →
  (∀ content,
     ollama_post selected (_build_prompt task) (max_tokens_of task) ≠ Reply200 content) →
  ∃ t s', dispatch task s = (Return (error_response t), s').
Proof.
  intros Hreg Hr Ht Hpost. apply (local_failure_error_response task s selected); try done.
  rewrite Hreg. unfold NOVACore._get_available_models, cloud_models.
  rewrite !filter_app. intros H. apply app_nil in H as [_ H].
  apply app_nil in H as [H _]. rewrite filter_cons in H.
  case_decide as Hd; [done|]. destruct Hd. by left.
Qed.

Lemma dispatch_cost_zero (task : Task) (s s' : state) (r : AIResponse) :
  dispatch task s = (Return r, s') → AIResponse.cost r = 0%Qc.
Proof.
  intros Hrun.
  destruct (route_task (cost_tracking (router s)) task (available_models s))
    as [selected|e] eqn:Hr.
  2: { destruct (dispatch_raises ollama_post environ analysis_error _build_prompt
                   _count_tokens _extract_actions_and_reasoning task s e Hr)
         as [s'' Hrun']. congruence. }
  destruct (dispatch_returns ollama_post environ analysis_error _build_prompt
              _count_tokens _extract_actions_and_reasoning task s selected Hr)
    as (r' & s'' & Hrun' & Hcases & _).
  assert (r' = r) as -> by congruence.
  destruct Hcases as [(r0 & s0 & s1 & t & Hinv & ->)|[_ [[t ->]|Hfb]]]; [|done|].
  - by apply invoke_returns in Hinv as (_ & _ & _ & Hcost & _).
  - destruct Hfb as (fb & r0 & s0 & s1 & t & _ & Hinv & ->).
    by apply invoke_returns in Hinv as (_ & _ & _ & Hcost & _).
Qed.

Lemma invoke_cloud_raises (task : Task) (model : Model) :
  Model.type model ≠ LOCAL → ∃ e, ∀ s0, invoke task model s0 = (Raise e, s0).
Proof.
  intros Hty. unfold _process_with_model, _process_with_free_api,
    _process_with_premium_api, raise.
  destruct (Model.type model); [done|by eexists|].
  destruct (environ _) as [[|]|]; by eexists.
Qed.

Lemma invoke_log (task : Task) (model : Model) (s : state) :
  ∃ l, log (invoke task model s).2 = log s ++ l.
Proof.
  unfold _process_with_model, _process_with_ollama, _process_with_free_api,
    _process_with_premium_api, raise, ret, mbind, M_bind, bind, logger, modify.
  repeat case_match; simplify_eq; simpl;
    first [by exists [] ; rewrite app_nil_r | by eexists].
Qed.

Lemma final_error_log (t0 : Qc) (s : state) :
  ∃ t s', final_error t0 s = (Return (error_response t), s') ∧ log s' = log s.
Proof.
  unfold final_error, mbind, M_bind, bind, time_time.
  destruct (clock s); by eexists _, _.
Qed.

Lemma local_models_head (models : list Model) (fb : Model) (rest : list Model) :
  local_models models = fb :: rest → Model.type fb = LOCAL ∧ fb ∈ models.
Proof.
  intros Hl. assert (Hin : fb ∈ local_models models) by (rewrite Hl; left).
  unfold local_models in Hin. by apply list_elem_of_filter in Hin.
Qed.

Lemma fallback_after_cloud_failure (task : Task) (t0 : Qc) (selected : Model) (e : exn)
    (s : state) :
  Model.type selected ≠ LOCAL →
  ∃ r s', fallback task t0 selected e s = (Return r, s')
    ∧ LogFailed (Model.name selected) e ∈ log s'
    ∧ match local_models (available_models s) with
      | fb :: _ =>
        match ollama_post fb (_build_prompt task) (max_tokens_of task) with
        | Reply200 content =>
          ∃ t, r = AIResponse.mk content (_extract_actions_and_reasoning content).1
                     (_extract_actions_and_reasoning content).2 (Model.name fb)
                     (Q2Qc 0.9) true (_count_tokens (_build_prompt task)) 0%Qc t
        | _ => ∃ t, r = error_response t
        end
      | [] => ∃ t, r = error_response t
      end.
Proof.
  intros Hty. unfold try_fallback, mbind, M_bind, bind, logger, modify, gets, try_except.
  simpl. set (s1 := add_log (LogFailed (Model.name selected) e) s).
  assert (Hlog1 : LogFailed (Model.name selected) e ∈ log s1).
  { simpl. apply elem_of_app. right. left. }
  assert (Hfail : ∀ fb, _get_fallback_model (available_models s) selected = Some fb →
            (∃ r0 s2, invoke task fb s1 = (Return r0, s2)) ∨
            ∃ t s', match invoke task fb s1 with
                    | (Return r0, s2) => (Return r0, s2)
                    | (Raise e2, s2) =>
                      final_error t0 (add_log (LogFallbackFailed e2) s2)
                    end = (Return (error_response t), s')
                    ∧ LogFailed (Model.name selected) e ∈ log s').
  { intros fb _. destruct (invoke task fb s1) as [[r0|e2] s2] eqn:Hinv; [left; eauto|].
    right. destruct (invoke_log task fb s1) as [l Hl]. rewrite Hinv in Hl. simpl in Hl.
    destruct (final_error_log t0 (add_log (LogFallbackFailed e2) s2))
      as (t & s' & Hrun & Hlog).
    exists t, s'. split; [done|]. rewrite Hlog. simpl. rewrite Hl.
    rewrite !elem_of_app. left. left. right. left. }
  destruct (local_models (available_models s)) as [|fb rest] eqn:Hlocal.
  - destruct (_get_fallback_model (available_models s) selected) as [fb|] eqn:Hfb.
    + assert (Hfbty : Model.type fb ≠ LOCAL).
      { intros Hl. apply get_fallback_elem in Hfb.
        assert (Hin : fb ∈ local_models (available_models s))
          by (unfold local_models; by apply list_elem_of_filter).
        rewrite Hlocal in Hin. by apply elem_of_nil in Hin. }
      destruct (invoke_cloud_raises task fb Hfbty) as [e2 He2].
      destruct (Hfail fb eq_refl) as [(r0 & s2 & Hinv)|(t & s' & Hrun & Hlog)].
      * rewrite He2 in Hinv. discriminate Hinv.
      * rewrite He2 in Hrun |- *. exists (error_response t), s'. eauto.
    + destruct (final_error_log t0 s1) as (t & s' & Hrun & Hlog).
      exists (error_response t), s'. rewrite Hlog. eauto.
  - apply local_models_head in Hlocal as Hhead. destruct Hhead as [Hfbty _].
    assert (Hfb : _get_fallback_model (available_models s) selected = Some fb).
    { unfold _get_fallback_model. rewrite Hlocal. by destruct (Model.type selected). }
    rewrite Hfb. pose proof (invoke_local task fb s1 Hfbty) as Hinv.
    destruct (ollama_post fb (_build_prompt task) (max_tokens_of task))
      as [content| | | |] eqn:Hpost.
    { rewrite Hinv. unfold time_time.
      destruct (clock s1); eexists _, _; (split; [reflexivity|]); split; eauto. }
    all: destruct Hinv as (e2 & s2 & Hinv);
      destruct (Hfail fb Hfb) as [(r0 & s3 & Hinv')|(t & s' & Hrun & Hlog)];
      [rewrite Hinv in Hinv'; discriminate Hinv'|];
      rewrite Hinv in Hrun |- *; exists (error_response t), s'; eauto.
Qed.

(** C10. The adapter of a free-tier model raises [NotImplementedError] on
    every task and that of a premium model raises the missing-key error or
    [NotImplementedError]; so a successful response of [process_task] was
    produced by a local model of the registry, and when the router's choice
    is not a local model its attempt raises, the failure is logged and the
    dispatch goes on to the fallback: the response, marked [fallback_used],
    is the answer of the first local model of the registry when there is one
    and Ollama answers for it, and the error response otherwise. *)
Theorem only_local_models_answer (task : Task) (s : state) :
  (∀ m s0, Model.type m = FREE_API →
     invoke task m s0 = (Raise (NotImplementedError "Free API integration pending"), s0))
  ∧ (∀ m s0, Model.type m = PREMIUM_API →
       invoke task m s0
       = (Raise (Exception ("No API key found for " +:+ Model.name m)), s0)
       ∨ invoke task m s0
         = (Raise (NotImplementedError "Premium API integration pending"), s0))
  ∧ (∀ r s', dispatch task s = (Return r, s') → AIResponse.success r = true →
       ∃ m, m ∈ available_models s ∧ Model.type m = LOCAL
            ∧ AIResponse.model_used r = Model.name m)
  ∧ (∀ selected,
       route_task (cost_tracking (router s)) task (available_models s) = Return selected →
       Model.type selected ≠ LOCAL →
       ∃ r s' e,
         dispatch task s = (Return r, s')
         ∧ (∀ s0, invoke task selected s0 = (Raise e, s0))
         ∧ LogFailed (Model.name selected) e ∈ log s'
         ∧ AIResponse.fallback_used r = true
         ∧ match local_models (available_models s) with
           | fb :: _ =>
             match ollama_post fb (_build_prompt task) (max_tokens_of task) with
             | Reply200 content =>
               ∃ t, r = AIResponse.mk content (_extract_actions_and_reasoning content).1
                          (_extract_actions_and_reasoning content).2 (Model.name fb)
                          (Q2Qc 0.9) true (_count_tokens (_build_prompt task)) 0%Qc t
             | _ => ∃ t, r = error_response t
             end
           | [] => ∃ t, r = error_response t
           end).
Proof.
  split_and!.
  - intros m s0 Hm. by apply invoke_free.
  - intros m s0 Hm. by apply invoke_premium.
  - intros r s' Hrun Hok.
    destruct (route_task (cost_tracking (router s)) task (available_models s))
      as [selected|e] eqn:Hr.
    2: { destruct (dispatch_raises ollama_post environ analysis_error _build_prompt
                     _count_tokens _extract_actions_and_reasoning task s e Hr)
           as [s'' Hrun']. congruence. }
    destruct (dispatch_returns ollama_post environ analysis_error _build_prompt
                _count_tokens _extract_actions_and_reasoning task s selected Hr)
      as (r' & s'' & Hrun' & Hcases & _).
    assert (r' = r) as -> by congruence.
    destruct Hcases as [(r0 & s0 & s1 & t & Hinv & ->)|[_ [[t ->]|Hfb]]].
    + apply invoke_returns in Hinv as (Hl & Hn & _). exists selected.
      split; [by eapply route_task_available|done].
    + done.
    + destruct Hfb as (fb & r0 & s0 & s1 & t & Hfb & Hinv & ->).
      apply invoke_returns in Hinv as (Hl & Hn & _). exists fb.
      split; [by eapply get_fallback_elem|done].
  - intros selected Hr Hty.
    destruct (dispatch_unfold task s selected Hr) as (t0 & s1 & Hst & _ & _ & ->).
    destruct (invoke_cloud_raises task selected Hty) as [e He].
    unfold try_except, try_primary, mbind, M_bind, bind. rewrite He.
    set (s2 := add_log _ s1).
    destruct (fallback_after_cloud_failure task t0 selected e s2 Hty)
      as (r & s' & Hrun & Hlog & Hans).
    assert (Hav : available_models s2 = available_models s).
    { apply (f_equal (fun x => x.1.1.2)) in Hst. exact Hst. }
    rewrite Hav in Hans. exists r, s', e. split_and!; try done.
    destruct (local_models (available_models s)) as [|fb rest]; [by destruct Hans as [t ->]|].
    destruct (ollama_post fb _ _); by destruct Hans as [t ->].
Qed.

End DispatchProperties.

Lemma only_local_models_answer_witness :
  ∃ r s' e, dispatch_with ok_post (task_of COMPLEX) fresh_state = (Return r, s')
    ∧ (∀ s0, _process_with_model ok_post no_environ prompt_of estimate_tokens no_actions
               (task_of COMPLEX) gpt_x s0 = (Raise e, s0))
    ∧ LogFailed "gpt-x" e ∈ log s'
    ∧ AIResponse.fallback_used r = true
    ∧ ∃ t, r = AIResponse.mk "Hello!" [] EmptyString "llama-7b" (Q2Qc 0.9) true
                 (estimate_tokens (prompt_of (task_of COMPLEX))) 0%Qc t.
Proof.
  destruct (only_local_models_answer ok_post no_environ no_analysis_error
              prompt_of estimate_tokens no_actions (task_of COMPLEX) fresh_state)
    as (_ & _ & _ & H).
  apply (H gpt_x); [reflexivity | discriminate].
Defined.

Lemma dispatch_response_shape_witness :
  ∃ r, (dispatch_with ok_post (task_of SIMPLE) fresh_state).1 = Return r
    ∧ AIResponse.cost r = 0%Qc
    ∧ (AIResponse.success r = true →
       AIResponse.confidence r = Q2Qc 0.9
       ∧ AIResponse.tokens_used r = estimate_tokens (prompt_of (task_of SIMPLE)))
    ∧ (AIResponse.success r = false → r = error_response (AIResponse.processing_time r)).
Proof.
  eexists. split; [reflexivity|].
  eapply (dispatch_response_shape ok_post no_environ no_analysis_error prompt_of
            estimate_tokens no_actions (task_of SIMPLE) fresh_state).
  reflexivity.
Defined.

Lemma analysis_failure_forces_fallback_witness :
  ∃ r s', process_task ok_post no_environ failing_analysis prompt_of estimate_tokens
            no_actions (task_of SIMPLE) fresh_state = (Return r, s')
    ∧ AIResponse.fallback_used r = true
    ∧ fallback_outcome ok_post no_environ prompt_of estimate_tokens no_actions
        (task_of SIMPLE) (available_models fresh_state) llama_7b r.
Proof.
  apply analysis_failure_forces_fallback; [reflexivity|].
  intros i. by eexists.
Defined.

Lemma primary_answer_is_returned_witness :
  ∃ r s', dispatch_with ok_post (task_of SIMPLE) fresh_state = (Return r, s')
    ∧ AIResponse.content r = "Hello!"
    ∧ AIResponse.model_used r = Model.name llama_7b
    ∧ AIResponse.fallback_used r = false
    ∧ AIResponse.success r = true
    ∧ log s' = log fresh_state ++ [LogRouting (Model.name llama_7b) SIMPLE]
    ∧ analysed s'
      = analysed fresh_state ++ [mkInteraction "hello" "Hello!" (Model.name llama_7b)
                                   (AIResponse.processing_time r) true]
    ∧ static s' = static fresh_state.
Proof.
  apply (primary_answer_is_returned ok_post no_environ no_analysis_error prompt_of
           estimate_tokens no_actions (task_of SIMPLE) fresh_state llama_7b "Hello!");
    try reflexivity.
Defined.

Lemma local_failure_with_cloud_registered_witness :
  ∃ t s', dispatch_with down_post (task_of SIMPLE) fresh_state
          = (Return (error_response t), s').
Proof.
  apply (local_failure_with_cloud_registered down_post no_environ no_analysis_error
           prompt_of estimate_tokens no_actions (task_of SIMPLE) fresh_state llama_7b).
  - reflexivity.
  - reflexivity.
  - intros content H. discriminate H.
  - vm_compute. discriminate.
Defined.

(** ** The caller: [NOVACore] *)

Lemma startswith_spec (s p : string) :
  startswith s p = true ↔ ∃ rest, s = p +:+ rest.
Proof.
  revert s. induction p as [|a p IH]; intros s; simpl.
  - split; [intros _; by exists s | done].
  - destruct s as [|b s]; simpl.
    + split; [done | intros [rest H]; discriminate H].
    + rewrite andb_true_iff, bool_decide_eq_true, IH. split.
      * intros [-> [rest ->]]. by exists rest.
      * intros [rest H]. injection H as -> ->. split; [done | by exists rest].
Qed.

Lemma contains_spec (needle haystack : string) :
  contains needle haystack = true ↔ occurs needle haystack.
Proof.
  unfold occurs. induction haystack as [|b h IH]; simpl.
  - rewrite orb_false_r, startswith_spec. split.
    + intros [rest H]. by exists EmptyString, rest.
    + intros ([|c before] & after & H); [by exists after|discriminate H].
  - rewrite orb_true_iff, startswith_spec, IH. split.
    + intros [[rest H]|(before & after & H)].
      * by exists EmptyString, rest.
      * exists (String b before), after. simpl. by rewrite H.
    + intros ([|c before] & after & H).
      * left. by exists after.
      * right. simpl in H. injection H as -> ->. by exists before, after.
Qed.

Lemma any_keyword_spec (lower : string → string) (keywords : list string)
    (request : string) :
  NOVACore.any_keyword lower keywords request = true
  ↔ ∃ k, k ∈ keywords ∧ occurs k (lower request).
Proof.
  unfold NOVACore.any_keyword. rewrite existsb_exists.
  split; intros (k & Hin & Hk); exists k.
  - split; [by apply list_elem_of_In | by apply contains_spec].
  - split; [by apply list_elem_of_In | by apply contains_spec].
Qed.

Lemma core_complexity_not_critical (lower : string → string) (request : string) :
  NOVACore._analyze_complexity lower request ≠ CRITICAL.
Proof. unfold NOVACore._analyze_complexity. by repeat case_match. Qed.

(** X19. The classifier of the core decides by keywords of the lower-cased
    request: complex when a complex keyword occurs in it, whatever else
    does; otherwise medium when a medium keyword occurs; otherwise simple.
    It never answers critical. *)
Theorem core_complexity_by_keywords (lower : string → string) (request : string) :
  let c := NOVACore._analyze_complexity lower request in
  let hit keywords := ∃ k, k ∈ keywords ∧ occurs k (lower request) in
  c ≠ CRITICAL
  ∧ (c = COMPLEX ↔ hit NOVACore.complex_keywords)
  ∧ (c = MEDIUM ↔ ¬ hit NOVACore.complex_keywords ∧ hit NOVACore.medium_keywords)
  ∧ (c = SIMPLE ↔ ¬ hit NOVACore.complex_keywords ∧ ¬ hit NOVACore.medium_keywords).
Proof.
  intros c hit. split; [apply core_complexity_not_critical|].
  subst c hit. unfold NOVACore._analyze_complexity.
  pose proof (any_keyword_spec lower NOVACore.complex_keywords request) as Hc.
  pose proof (any_keyword_spec lower NOVACore.medium_keywords request) as Hm.
  destruct (NOVACore.any_keyword lower NOVACore.complex_keywords request),
    (NOVACore.any_keyword lower NOVACore.medium_keywords request);
    split_and!; intuition congruence.
Qed.

Lemma core_registry_pools (discovered : result (list Model))
    (environ : string → option string) :
  let found := match discovered with Return models => models | Raise _ => [] end in
  let models := NOVACore._get_available_models discovered environ in
  local_models models = local_models found
  ∧ ∃ rest, free_api_models models = free_api_models found ++ NOVACore.groq_mixtral :: rest.
Proof.
  unfold NOVACore._get_available_models, local_models, free_api_models.
  rewrite !filter_app. split.
  - destruct (environ "OPENAI_API_KEY") as [[|]|]; simpl; by rewrite app_nil_r.
  - eexists. by f_equal.
Qed.

(** X20. The registry the core hands to the engine always holds the free
    model "groq-mixtral", so routing over it fails in one case only: the
    budget is spent, the task is complex or critical, and no local model
    was discovered. *)
Theorem core_registry_routing_failure (discovered : result (list Model))
    (environ : string → option string) (c : CostTracking) (task : Task) :
  let found := match discovered with Return models => models | Raise _ => [] end in
  let models := NOVACore._get_available_models discovered environ in
  NOVACore.groq_mixtral ∈ models
  ∧ (raises (route_task c task models)
     ↔ (CostTracking.remaining_budget c ≤ 0)%Qc
       ∧ (Task.complexity task = COMPLEX ∨ Task.complexity task = CRITICAL)
       ∧ local_models found = []).
Proof.
  intros found models. split.
  - unfold models, NOVACore._get_available_models. rewrite !elem_of_app.
    right. left. apply list_elem_of_here.
  - rewrite route_task_raises. unfold open_pools.
    destruct (core_registry_pools discovered environ) as [HL [rest HF]].
    fold found models in HL, HF. rewrite HL, HF.
    assert (Hne : ∀ X Y : list Model,
              X ++ (free_api_models found ++ NOVACore.groq_mixtral :: rest) ++ Y ≠ []).
    { intros X Y H. apply app_nil in H as [_ H]. apply app_nil in H as [H _].
      by apply app_nil in H as [_ H]. }
    case_bool_decide as Hb.
    + destruct (Task.complexity task) eqn:Hc.
      * split; [intros H|intros (_ & [?|?] & _); done].
        destruct (Hne (local_models found) []). by rewrite app_nil_r.
      * split; [intros H|intros (_ & [?|?] & _); done].
        destruct (Hne (local_models found) []). by rewrite app_nil_r.
      * split; [intros H; auto | by intros (_ & _ & ?)].
      * split; [intros H; auto | by intros (_ & _ & ?)].
    + split; [intros H; by destruct (Hne _ _ H) | by intros [? _]].
Qed.

(** X22. A task built by [process_user_request] is never critical, so the
    lowest premium reserve (1.0) is out of its reach: for such a task
    [route_task] returns a premium model only when the remaining budget is
    strictly above 2. *)
Theorem core_premium_needs_two (lower : string → string) (request : string)
    (context : gmap string string) (c : CostTracking) (models : list Model) (m : Model) :
  route_task c (NOVACore.make_task lower request context) models = Return m →
  Model.type m = PREMIUM_API →
  (Q2Qc 2 < CostTracking.remaining_budget c)%Qc.
Proof.
  intros Hr Hp.
  destruct (route_task_premium_reserve _ _ _ _ Hr Hp) as (reserve & Hres & Hlt).
  simpl in Hres. pose proof (core_complexity_not_critical lower request) as Hnc.
  destruct (NOVACore._analyze_complexity lower request);
    simpl in Hres; simplify_eq; try done.
  eapply Qclt_trans; [|exact Hlt]. reflexivity.
Qed.

Lemma core_registry_local_failure_witness :
  ∃ t s', dispatch_with down_post (task_of SIMPLE) core_state
          = (Return (error_response t), s').
Proof.
  apply (core_registry_local_failure down_post no_environ no_analysis_error prompt_of
           estimate_tokens no_actions (Return [llama_7b; mistral_7b]) (task_of SIMPLE)
           core_state llama_7b).
  - reflexivity.
  - reflexivity.
  - reflexivity.
  - intros content H. discriminate H.
Defined.

Lemma core_premium_needs_two_witness :
  (Q2Qc 2 < CostTracking.remaining_budget (period 0%Qc))%Qc.
Proof.
  apply (core_premium_needs_two lower_ascii "Build a scheduler" ∅ (period 0%Qc)
           [llama_7b; gpt_x] gpt_x); reflexivity.
Defined.

Section CoreProperties.

Variable lower : string → string.
Variable ollama_post : Model → string → Z → ollama_reply.
Variable environ : string → option string.
Variable analysis_error : interaction → option exn.
Variable _build_prompt : Task → string.
Variable _count_tokens : string → Z.
Variable _extract_actions_and_reasoning : string → list Action * string.
Variable _build_context : result (gmap string string).
Variable _execute_action : Action → bool.
Variable add_conversation_error : string → AIResponse → list string → option exn.
Variable str_of_exn : exn → string.

Local Abbreviation process_user_request :=
  (NOVACore.process_user_request lower ollama_post environ analysis_error _build_prompt
     _count_tokens _extract_actions_and_reasoning _build_context _execute_action
     add_conversation_error str_of_exn).


End CoreProperties.

(** ** [ReasoningEngine]: status and configuration *)

Lemma total_requests_delete (tokens : gmap string Z) (k : string) :
  ReasoningEngine.total_requests tokens
  = (default 0 (tokens !! k) + ReasoningEngine.total_requests (delete k tokens))%Z.
Proof.
  unfold ReasoningEngine.total_requests. destruct (tokens !! k) as [v|] eqn:Hk; simpl.
  - rewrite (map_fold_delete_L _ _ k v tokens); [lia | intros; lia | done].
  - by rewrite delete_id.
Qed.

Lemma registry_tokens_total (tokens : gmap string Z) (models : list Model) :
  NoDup (Model.name <$> models) →
  (∀ k, is_Some (tokens !! k) → k ∈ Model.name <$> models) →
  foldr Z.add 0%Z ((fun m => default 0%Z (tokens !! Model.name m)) <$> models)
  = ReasoningEngine.total_requests tokens.
Proof.
  revert tokens. induction models as [|m ms IH]; intros tokens Hnd Hdom; simpl.
  - assert (tokens = ∅) as ->; [|done].
    apply map_empty. intros k. destruct (tokens !! k) eqn:Hk; [|done].
    assert (Hin : k ∈ Model.name <$> []) by (apply Hdom; by rewrite Hk).
    by apply elem_of_nil in Hin.
  - rewrite fmap_cons in Hnd. apply NoDup_cons in Hnd as [Hm Hnd].
    rewrite (total_requests_delete tokens (Model.name m)). f_equal.
    rewrite <- (IH (delete (Model.name m) tokens) Hnd).
    + f_equal. apply list_fmap_ext. intros i x Hx.
      rewrite lookup_delete_ne; [done|]. intros Heq. apply Hm. rewrite Heq.
      apply list_elem_of_fmap. exists x. split; [done|]. by eapply list_elem_of_lookup_2.
    + intros k [v Hk]. apply lookup_delete_Some in Hk as [Hne Hk].
      assert (Hin : k ∈ Model.name <$> m :: ms) by (apply Hdom; by eexists).
      rewrite fmap_cons in Hin. by apply elem_of_cons in Hin as [?|?].
Qed.

Lemma registry_tokens_by_kind (tokens : gmap string Z) (models : list Model) :
  foldr Z.add 0%Z ((fun m => default 0%Z (tokens !! Model.name m)) <$> models)
  = (ReasoningEngine.requests_of tokens LOCAL models
     + ReasoningEngine.requests_of tokens FREE_API models
     + ReasoningEngine.requests_of tokens PREMIUM_API models)%Z.
Proof.
  unfold ReasoningEngine.requests_of. induction models as [|m ms IH]; [done|].
  rewrite fmap_cons. cbn [foldr]. rewrite IH, !filter_cons.
  destruct (Model.type m) eqn:Ht; repeat case_decide; try congruence;
    rewrite ?fmap_cons; cbn [foldr]; lia.
Qed.

(** X25. The request counts of [get_model_info] are exact integers: when
    the models of the registry have distinct names and every model with
    recorded tokens is in the registry, the local, free and premium counts
    add up to [total_requests], the sum of all recorded tokens. *)
Theorem routing_requests_add_up (tokens : gmap string Z) (models : list Model) :
  NoDup (Model.name <$> models) →
  (∀ k, is_Some (tokens !! k) → k ∈ Model.name <$> models) →
  (ReasoningEngine.requests_of tokens LOCAL models
   + ReasoningEngine.requests_of tokens FREE_API models
   + ReasoningEngine.requests_of tokens PREMIUM_API models)%Z
  = ReasoningEngine.total_requests tokens.
Proof.
  intros Hnd Hdom. rewrite <- registry_tokens_by_kind.
  by apply registry_tokens_total.
Qed.

Lemma routing_requests_add_up_witness :
  (ReasoningEngine.requests_of (CostTracking.tokens_by_model busy_period) LOCAL
     [llama_7b; gpt_x; groq]
   + ReasoningEngine.requests_of (CostTracking.tokens_by_model busy_period) FREE_API
       [llama_7b; gpt_x; groq]
   + ReasoningEngine.requests_of (CostTracking.tokens_by_model busy_period) PREMIUM_API
       [llama_7b; gpt_x; groq])%Z
  = ReasoningEngine.total_requests (CostTracking.tokens_by_model busy_period).
Proof.
  apply (routing_requests_add_up (CostTracking.tokens_by_model busy_period)
           [llama_7b; gpt_x; groq]).
  - apply (bool_decide_unpack _). reflexivity.
  - intros k [v Hk]. simpl in Hk.
    destruct (decide ("gpt-x" = k)) as [<-|]; [apply list_elem_of_In; simpl; auto|].
    rewrite lookup_insert_ne in Hk by done.
    destruct (decide ("llama-7b" = k)) as [<-|]; [apply list_elem_of_In; simpl; auto|].
    rewrite lookup_insert_ne in Hk by done. by rewrite lookup_empty in Hk.
Defined.

(** X23. On a fresh engine [initialize] leaves no active model exactly when
    the registry has no local model; otherwise the active model is a local
    model of the registry, and it matches the name in NOVA_MODEL (equal or
    prefix, after lower-casing) whenever some local model does. *)
Theorem initialize_active_model (lower : string → string)
    (environ : string → option string) (models : list Model) :
  let active := ReasoningEngine.initialize lower environ None models in
  (active = None ↔ local_models models = [])
  ∧ (∀ m, active = Some m → m ∈ models ∧ Model.type m = LOCAL)
  ∧ (∀ preferred m', environ "NOVA_MODEL" = Some preferred → preferred ≠ EmptyString →
       m' ∈ local_models models → ReasoningEngine.name_matches lower m' preferred = true →
       ∃ m, active = Some m ∧ ReasoningEngine.name_matches lower m preferred = true).
Proof.
  unfold ReasoningEngine.initialize.
  assert (Hloc : ∀ m, m ∈ local_models models → m ∈ models ∧ Model.type m = LOCAL).
  { intros m Hm. unfold local_models in Hm. by apply list_elem_of_filter in Hm as [? ?]. }
  assert (Hfind : ∀ P m, List.find P (local_models models) = Some m
                         → m ∈ local_models models ∧ P m = true).
  { intros P m [? ?]%find_some. split; [by apply list_elem_of_In|done]. }
  split_and!.
  - destruct (environ "NOVA_MODEL") as [[|a p]|];
      try destruct (List.find _ _) as [m|] eqn:Hf;
      destruct (local_models models) as [|x xs] eqn:HL; done.
  - intros m. destruct (environ "NOVA_MODEL") as [[|a p]|];
      try destruct (List.find _ _) as [m0|] eqn:Hf;
      try (apply Hfind in Hf as [Hin _]);
      destruct (local_models models) as [|x xs] eqn:HL; try done;
      intros [= <-]; apply Hloc; try done; rewrite ?HL; by left.
  - intros preferred m' Henv Hne Hin Hmatch. rewrite Henv.
    destruct preferred as [|a p]; [done|].
    destruct (List.find _ _) as [m|] eqn:Hf.
    + apply Hfind in Hf as [_ Hm]. by exists m.
    + apply list_elem_of_In in Hin. by rewrite (find_none _ _ Hf m' Hin) in Hmatch.
Qed.

(** X24. [switch_model] succeeds exactly for the names of the registry,
    cloud models included; it then activates the first model of that name,
    and otherwise leaves the active model as it was. *)
Theorem switch_model_by_name (models : list Model) (active : option Model)
    (model_name : string) :
  let '(found, active') := ReasoningEngine.switch_model models active model_name in
  (found = true ↔ model_name ∈ Model.name <$> models)
  ∧ (found = true →
     ∃ before m after, models = before ++ m :: after ∧ active' = Some m
       ∧ Model.name m = model_name
       ∧ Forall (fun x => Model.name x ≠ model_name) before)
  ∧ (found = false → active' = active).
Proof.
  unfold ReasoningEngine.switch_model.
  induction models as [|x xs IH]; cbn [List.find].
  - split_and!; try done. split; [done|]. rewrite fmap_nil. by intros ?%elem_of_nil.
  - case_bool_decide as Hx.
    + split_and!; try done.
      * split; [intros _|done]. rewrite fmap_cons, Hx. by left.
      * intros _. exists [], x, xs. by split_and!.
    + destruct (List.find _ xs) as [m|] eqn:Hf; destruct IH as (Hiff & Hsome & Hnone).
      * split_and!; try done.
        -- split; [intros _|done]. rewrite fmap_cons. right. by apply Hiff.
        -- intros _. destruct (Hsome eq_refl) as (before & m' & after & -> & Hm & Hn & Hb).
           exists (x :: before), m', after. split_and!; try done. by constructor.
      * split_and!; try done. split; [done|]. rewrite fmap_cons.
        intros [?|Hin]%elem_of_cons; [done|]. by apply Hiff in Hin.
Qed.

Lemma string_append_assoc (s1 s2 s3 : string) :
  (s1 +:+ s2) +:+ s3 = s1 +:+ (s2 +:+ s3).
Proof.
  induction s1 as [|a s1 IH]; [done|].
  change (String a ((s1 +:+ s2) +:+ s3) = String a (s1 +:+ (s2 +:+ s3))).
  by f_equal.
Qed.

(** X26. The prompt is the system prompt, the context section, and the
    request between "User: " and "NOVA:"; of the context only the entries
    "system_info", "current_directory" and "recent_files" are read: two
    tasks with the same content that agree on these three entries get the
    same prompt, whatever else their contexts hold. *)
Theorem build_prompt_reads_three_keys (task1 task2 : Task) :
  Task.content task1 = Task.content task2 →
  (∀ k, k ∈ ["system_info"; "current_directory"; "recent_files"] →
        Task.context task1 !! k = Task.context task2 !! k) →
  ReasoningEngine._build_prompt task1 = ReasoningEngine._build_prompt task2
  ∧ occurs ("User: " +:+ Task.content task1) (ReasoningEngine._build_prompt task1).
Proof.
  intros Hc Hk. split.
  - unfold ReasoningEngine._build_prompt, ReasoningEngine.context_items.
    rewrite Hc, !Hk; [done|..]; apply list_elem_of_In; simpl; auto.
  - unfold occurs, ReasoningEngine._build_prompt.
    set (context_str := match ReasoningEngine.context_items _ with [] => _ | _ => _ end).
    exists (ReasoningEngine.system_prompt
            +:+ context_str +:+ ReasoningEngine.nl +:+ ReasoningEngine.nl),
      (ReasoningEngine.nl +:+ ReasoningEngine.nl +:+ "NOVA:").
    rewrite (string_append_assoc ReasoningEngine.system_prompt),
      (string_append_assoc context_str), (string_append_assoc ReasoningEngine.nl),
      (string_append_assoc "User: ").
    reflexivity.
Qed.

Lemma build_prompt_reads_three_keys_witness :
  ReasoningEngine._build_prompt (Task.mk "hello" SIMPLE plain_context false false None)
  = ReasoningEngine._build_prompt
      (Task.mk "hello" COMPLEX (<["system_info" := "M2 Mac"]> ∅) true false (Some 100%Z))
  ∧ occurs ("User: " +:+ "hello")
      (ReasoningEngine._build_prompt (Task.mk "hello" SIMPLE plain_context false false None)).
Proof.
  apply build_prompt_reads_three_keys; [reflexivity|].
  intros k Hk. apply list_elem_of_In in Hk. simpl in Hk.
  destruct Hk as [<-|[<-|[<-|[]]]]; reflexivity.
Defined.
